(** * Statistics and property reporting of the storage engine

    A shallow embedding of [db/internal_stats.cc]: the property catalog
    ([GetPropertyType]), the three query paths ([GetIntPropertyOutOfMutex],
    [GetStringProperty] with [DumpDBStats] and [DumpCFStats]) and the
    row printer ([PrintLevelStats]).

    Conventions of the embedding.
    - [uint64_t] values are integers in [Z]; every unsigned addition and
      subtraction of the source is followed by [wrap64], its reduction
      modulo 2^64.  The cast [(int)] of a [uint64_t] is [to_int], the
      two's complement reading of the low 32 bits.  Sums of [int]s are
      not reduced: their overflow is undefined in the source.
    - [double] values are exact rationals ([Qc]); rounding is not modelled,
      and a division by zero, which is an infinity or a NaN for a [double],
      is [0] in [Qc].  The statements keep the [double] expressions of the
      source as the source evaluates them, operation by operation and in
      its order; where a statement rewrites one by a law of exact
      arithmetic, it carries the bound under which the [double]
      operations involved are exact.
    - A [Slice] is a [string].
    - The [std::string] that a report appends to is the list of the chunks
      appended to it, one chunk per [snprintf]: a chunk records the format
      it was printed with (its constructor) and the arguments handed to
      [snprintf], in order.  The text is a function of that list. *)

From Stdlib Require Import ZArith QArith Qcanon String Ascii List Lia Bool.
From Stdlib Require Import Qround DecimalString DecimalPos.
From stdpp Require Import base list.
Import ListNotations.

Open Scope string_scope.
Open Scope list_scope.
Open Scope Z_scope.

(** ** Machine arithmetic *)

Definition two64 : Z := 2 ^ 64.
Definition two32 : Z := 2 ^ 32.

Definition wrap64 (z : Z) : Z := z mod two64.

Definition is_uint64 (z : Z) : Prop := 0 <= z < two64.

(** [(int)x] for a 64-bit unsigned [x]. *)
Definition to_int (z : Z) : Z :=
  let r := z mod two32 in
  if r <? 2 ^ 31 then r else r - two32.

Definition double : Type := Qc.

(** Conversion of an integer to [double]. *)
Definition Z2D (z : Z) : double := Q2Qc (inject_Z z).

Definition kMB : double := Z2D 1048576.
Definition kGB : double := (kMB * Z2D 1024)%Qc.
Definition kMicros : double := Z2D 1000000.

(** ** Slices *)

Definition starts_with (s p : string) : bool := String.prefix p s.

Fixpoint remove_prefix (n : nat) (s : string) : string :=
  match n, s with
  | O, _ => s
  | S n', String _ s' => remove_prefix n' s'
  | S _, EmptyString => EmptyString
  end.

Definition slice_empty (s : string) : bool :=
  match s with EmptyString => true | _ => false end.

(** ** Property catalog *)

Inductive DBPropertyType : Type :=
| kUnknown
| kNumFilesAtLevel
| kLevelStats
| kCFStats
| kDBStats
| kStats
| kSsTables
| kNumImmutableMemTable
| kMemtableFlushPending
| kCompactionPending
| kBackgroundErrors
| kCurSizeActiveMemTable
| kCurSizeAllMemTables
| kNumEntriesInMutableMemtable
| kNumEntriesInImmutableMemtable
| kEstimatedNumKeys
| kEstimatedUsageByTableReaders
| kIsFileDeletionEnabled
| kNumSnapshots
| kOldestSnapshotTime
| kNumLiveVersions.

Definition DBPropertyType_eq_dec (a b : DBPropertyType) : {a = b} + {a <> b}.
Proof. decide equality. Defined.

(** The result of [GetPropertyType]: the returned kind and the two flags
    written through the pointers [is_int_property] and
    [need_out_of_mutex]. *)
Record PropertyInfo : Type := mkPropertyInfo {
  property_type : DBPropertyType;
  is_int_property : bool;
  need_out_of_mutex : bool
}.

Definition GetPropertyType (property : string) : PropertyInfo :=
  let prefix := "rocksdb." in
  (* *need_out_of_mutex = false; *is_int_property = false; *)
  if negb (starts_with property prefix) then mkPropertyInfo kUnknown false false
  else
    let in_ := remove_prefix (String.length prefix) property in
    if starts_with in_ "num-files-at-level" then
      mkPropertyInfo kNumFilesAtLevel false false
    else if (in_ =? "levelstats")%string then mkPropertyInfo kLevelStats false false
    else if (in_ =? "stats")%string then mkPropertyInfo kStats false false
    else if (in_ =? "cfstats")%string then mkPropertyInfo kCFStats false false
    else if (in_ =? "dbstats")%string then mkPropertyInfo kDBStats false false
    else if (in_ =? "sstables")%string then mkPropertyInfo kSsTables false false
    else
      (* *is_int_property = true; *)
      if (in_ =? "num-immutable-mem-table")%string then
        mkPropertyInfo kNumImmutableMemTable true false
      else if (in_ =? "mem-table-flush-pending")%string then
        mkPropertyInfo kMemtableFlushPending true false
      else if (in_ =? "compaction-pending")%string then
        mkPropertyInfo kCompactionPending true false
      else if (in_ =? "background-errors")%string then
        mkPropertyInfo kBackgroundErrors true false
      else if (in_ =? "cur-size-active-mem-table")%string then
        mkPropertyInfo kCurSizeActiveMemTable true false
      else if (in_ =? "cur-size-all-mem-tables")%string then
        mkPropertyInfo kCurSizeAllMemTables true false
      else if (in_ =? "num-entries-active-mem-table")%string then
        mkPropertyInfo kNumEntriesInMutableMemtable true false
      else if (in_ =? "num-entries-imm-mem-tables")%string then
        mkPropertyInfo kNumEntriesInImmutableMemtable true false
      else if (in_ =? "estimate-num-keys")%string then
        mkPropertyInfo kEstimatedNumKeys true false
      else if (in_ =? "estimate-table-readers-mem")%string then
        (* *need_out_of_mutex = true; *)
        mkPropertyInfo kEstimatedUsageByTableReaders true true
      else if (in_ =? "is-file-deletions-enabled")%string then
        mkPropertyInfo kIsFileDeletionEnabled true false
      else if (in_ =? "num-snapshots")%string then
        mkPropertyInfo kNumSnapshots true false
      else if (in_ =? "oldest-snapshot-time")%string then
        mkPropertyInfo kOldestSnapshotTime true false
      else if (in_ =? "num-live-versions")%string then
        mkPropertyInfo kNumLiveVersions true false
      else mkPropertyInfo kUnknown true false.

(** The documented catalog: each property name (without the namespace
    prefix) with its kind and its two policy flags. *)
Definition documented_properties : list (string * PropertyInfo) :=
  [ ("levelstats", mkPropertyInfo kLevelStats false false);
    ("stats", mkPropertyInfo kStats false false);
    ("cfstats", mkPropertyInfo kCFStats false false);
    ("dbstats", mkPropertyInfo kDBStats false false);
    ("sstables", mkPropertyInfo kSsTables false false);
    ("num-immutable-mem-table", mkPropertyInfo kNumImmutableMemTable true false);
    ("mem-table-flush-pending", mkPropertyInfo kMemtableFlushPending true false);
    ("compaction-pending", mkPropertyInfo kCompactionPending true false);
    ("background-errors", mkPropertyInfo kBackgroundErrors true false);
    ("cur-size-active-mem-table", mkPropertyInfo kCurSizeActiveMemTable true false);
    ("cur-size-all-mem-tables", mkPropertyInfo kCurSizeAllMemTables true false);
    ("num-entries-active-mem-table",
      mkPropertyInfo kNumEntriesInMutableMemtable true false);
    ("num-entries-imm-mem-tables",
      mkPropertyInfo kNumEntriesInImmutableMemtable true false);
    ("estimate-num-keys", mkPropertyInfo kEstimatedNumKeys true false);
    ("estimate-table-readers-mem",
      mkPropertyInfo kEstimatedUsageByTableReaders true true);
    ("is-file-deletions-enabled", mkPropertyInfo kIsFileDeletionEnabled true false);
    ("num-snapshots", mkPropertyInfo kNumSnapshots true false);
    ("oldest-snapshot-time", mkPropertyInfo kOldestSnapshotTime true false);
    ("num-live-versions", mkPropertyInfo kNumLiveVersions true false) ].

(** ** Versions and their storage information

    [Version], [VersionStorageInfo] and [FileMetaData] are declared outside
    [db/internal_stats.cc]; the records below hold what the accessors used
    in this file return. *)

Record FileMetaData : Type := mkFileMetaData {
  being_compacted : bool
}.

Record VersionStorageInfo : Type := mkVersionStorageInfo {
  num_levels : Z;
  (* files_[level], read through LevelFiles(level) and NumLevelFiles(level) *)
  files_ : list (list FileMetaData);
  (* NumLevelBytes(level) *)
  level_bytes_ : list Z;
  (* CompactionScore(i) and CompactionScoreLevel(i): sorted by score *)
  compaction_score_ : list double;
  compaction_level_ : list Z
}.

Record Version : Type := mkVersion {
  storage_info : VersionStorageInfo;
  DebugString : string;
  GetMemoryUsageByTableReaders : Z
}.

(** ** The isolated integer path *)

(** [value] is the content of [*value] before the call; the result is the
    returned flag and the content of [*value] after it. *)
Definition GetIntPropertyOutOfMutex (property_type : DBPropertyType)
    (version : option Version) (value : Z) : bool * Z :=
  if DBPropertyType_eq_dec property_type kEstimatedUsageByTableReaders then
    match version with
    | None => (true, 0)
    | Some v => (true, GetMemoryUsageByTableReaders v)
    end
  else (false, value).

(** ** Compaction statistics *)

(** Modelled from the spec: the struct [InternalStats::CompactionStats]
    with its constructor, [Add] and [Subtract], which are declared in
    [db/internal_stats.h] and are not part of [db/internal_stats.cc].  The
    fields are those of the data model; [Add] is the elementwise sum and
    [Subtract] the elementwise difference clamped at zero per field.  The
    counters are [uint64_t] (their sum wraps), [count] is an [int]. *)
Record CompactionStats : Type := mkCompactionStats {
  micros : Z;
  bytes_readn : Z;
  bytes_readnp1 : Z;
  bytes_written : Z;
  bytes_moved : Z;
  num_input_records : Z;
  num_dropped_records : Z;
  count : Z
}.

Definition CompactionStats_init (_count : Z) : CompactionStats :=
  mkCompactionStats 0 0 0 0 0 0 0 _count.

Definition clamped_sub (a b : Z) : Z := if a <? b then 0 else a - b.

Definition Add (this c : CompactionStats) : CompactionStats :=
  {| micros := wrap64 (micros this + micros c);
     bytes_readn := wrap64 (bytes_readn this + bytes_readn c);
     bytes_readnp1 := wrap64 (bytes_readnp1 this + bytes_readnp1 c);
     bytes_written := wrap64 (bytes_written this + bytes_written c);
     bytes_moved := wrap64 (bytes_moved this + bytes_moved c);
     num_input_records := wrap64 (num_input_records this + num_input_records c);
     num_dropped_records :=
       wrap64 (num_dropped_records this + num_dropped_records c);
     count := count this + count c |}.

Definition Subtract (this c : CompactionStats) : CompactionStats :=
  {| micros := clamped_sub (micros this) (micros c);
     bytes_readn := clamped_sub (bytes_readn this) (bytes_readn c);
     bytes_readnp1 := clamped_sub (bytes_readnp1 this) (bytes_readnp1 c);
     bytes_written := clamped_sub (bytes_written this) (bytes_written c);
     bytes_moved := clamped_sub (bytes_moved this) (bytes_moved c);
     num_input_records :=
       clamped_sub (num_input_records this) (num_input_records c);
     num_dropped_records :=
       clamped_sub (num_dropped_records this) (num_dropped_records c);
     count := clamped_sub (count this) (count c) |}.

(** Every counter is a [uint64_t] value and [count] a non-negative [int]. *)
Definition CompactionStats_wf (a : CompactionStats) : Prop :=
  is_uint64 (micros a) /\ is_uint64 (bytes_readn a) /\
  is_uint64 (bytes_readnp1 a) /\ is_uint64 (bytes_written a) /\
  is_uint64 (bytes_moved a) /\ is_uint64 (num_input_records a) /\
  is_uint64 (num_dropped_records a) /\ 0 <= count a < 2 ^ 31.

(** Field-wise order, [b <= a]. *)
Definition CompactionStats_le (b a : CompactionStats) : Prop :=
  micros b <= micros a /\ bytes_readn b <= bytes_readn a /\
  bytes_readnp1 b <= bytes_readnp1 a /\ bytes_written b <= bytes_written a /\
  bytes_moved b <= bytes_moved a /\
  num_input_records b <= num_input_records a /\
  num_dropped_records b <= num_dropped_records a /\ count b <= count a.

(** ** The state of [InternalStats] *)

Inductive InternalCFStatsType : Type :=
| LEVEL0_SLOWDOWN
| MEMTABLE_COMPACTION
| LEVEL0_NUM_FILES
| BYTES_FLUSHED.

Inductive InternalDBStatsType : Type :=
| WAL_FILE_BYTES
| WAL_FILE_SYNCED
| BYTES_WRITTEN
| NUMBER_KEYS_WRITTEN
| WRITE_DONE_BY_OTHER
| WRITE_DONE_BY_SELF
| WRITE_WITH_WAL
| WRITE_STALL_MICROS.

Inductive CompactionStyle : Type :=
| kCompactionStyleLevel
| kCompactionStyleUniversal
| kCompactionStyleFIFO.

(** [cf_stats_snapshot_] *)
Module CFStatsSnapshot.
Record t : Type := mk {
  comp_stats : CompactionStats;
  ingest_bytes : Z;
  stall_us : double;
  stall_count : Z
}.
End CFStatsSnapshot.

(** [db_stats_snapshot_] *)
Module DBStatsSnapshot.
Record t : Type := mk {
  ingest_bytes : Z;
  wal_bytes : Z;
  wal_synced : Z;
  write_with_wal : Z;
  write_other : Z;
  write_self : Z;
  num_keys_written : Z;
  write_stall_micros : Z;
  seconds_up : double
}.
End DBStatsSnapshot.

Record ColumnFamilyData : Type := mkColumnFamilyData {
  GetName : string;
  compaction_style : CompactionStyle;
  current : Version
}.

Record InternalStats : Type := mkInternalStats {
  db_stats_ : InternalDBStatsType -> Z;
  cf_stats_value_ : InternalCFStatsType -> Z;
  cf_stats_count_ : InternalCFStatsType -> Z;
  comp_stats_ : list CompactionStats;
  stall_leveln_slowdown_hard_ : list Z;
  stall_leveln_slowdown_count_hard_ : list Z;
  stall_leveln_slowdown_soft_ : list Z;
  stall_leveln_slowdown_count_soft_ : list Z;
  cf_stats_snapshot_ : CFStatsSnapshot.t;
  db_stats_snapshot_ : DBStatsSnapshot.t;
  number_levels_ : Z;
  started_at_ : Z;
  cfd_ : ColumnFamilyData
}.

Definition set_cf_stats_snapshot (s : InternalStats) (snap : CFStatsSnapshot.t)
    : InternalStats :=
  mkInternalStats (db_stats_ s) (cf_stats_value_ s) (cf_stats_count_ s)
    (comp_stats_ s) (stall_leveln_slowdown_hard_ s)
    (stall_leveln_slowdown_count_hard_ s) (stall_leveln_slowdown_soft_ s)
    (stall_leveln_slowdown_count_soft_ s) snap (db_stats_snapshot_ s)
    (number_levels_ s) (started_at_ s) (cfd_ s).

Definition set_db_stats_snapshot (s : InternalStats) (snap : DBStatsSnapshot.t)
    : InternalStats :=
  mkInternalStats (db_stats_ s) (cf_stats_value_ s) (cf_stats_count_ s)
    (comp_stats_ s) (stall_leveln_slowdown_hard_ s)
    (stall_leveln_slowdown_count_hard_ s) (stall_leveln_slowdown_soft_ s)
    (stall_leveln_slowdown_count_soft_ s) (cf_stats_snapshot_ s) snap
    (number_levels_ s) (started_at_ s) (cfd_ s).

(** ** Vectors *)

(** [v[i]].  An index outside the vector is undefined behaviour in the
    source; the model reads the default [d] there. *)
Definition at_ {A : Type} (d : A) (v : list A) (i : Z) : A :=
  if i <? 0 then d else default d (v !! Z.to_nat i).

(** [v[i] = x].  Outside the vector (undefined behaviour in the source) the
    model leaves [v] as it is. *)
Definition set_at {A : Type} (v : list A) (i : Z) (x : A) : list A :=
  if i <? 0 then v else <[Z.to_nat i := x]> v.

(** [std::vector<T> v(n, x)] *)
Definition vector_init {A : Type} (n : Z) (x : A) : list A :=
  replicate (Z.to_nat n) x.

Definition zero_stats : CompactionStats := CompactionStats_init 0.

Definition NumLevelFiles (vstorage : VersionStorageInfo) (level : Z) : Z :=
  Z.of_nat (length (at_ [] (files_ vstorage) level)).

Definition LevelFiles (vstorage : VersionStorageInfo) (level : Z)
    : list FileMetaData :=
  at_ [] (files_ vstorage) level.

Definition NumLevelBytes (vstorage : VersionStorageInfo) (level : Z) : Z :=
  at_ 0 (level_bytes_ vstorage) level.

Definition CompactionScore (vstorage : VersionStorageInfo) (i : Z) : double :=
  at_ (Z2D 0) (compaction_score_ vstorage) i.

Definition CompactionScoreLevel (vstorage : VersionStorageInfo) (i : Z) : Z :=
  at_ 0 (compaction_level_ vstorage) i.

(** ** Formatting *)

(** The rendering of an [int] by [%d], and [ToString]. *)
Definition ToString (z : Z) : string := NilZero.string_of_int (Z.to_int z).

(** The arguments handed to [snprintf] by [PrintLevelStats], in order. *)
Record LevelRow : Type := mkLevelRow {
  row_name : string;
  row_files : Z;
  row_being_compacted : Z;
  row_size_mb : double;
  row_score : double;
  row_read_gb : double;
  row_rn_gb : double;
  row_rnp1_gb : double;
  row_write_gb : double;
  row_wnew_gb : double;
  row_moved_gb : double;
  row_w_amp : double;
  row_rd_mbs : double;
  row_wr_mbs : double;
  row_comp_sec : double;
  row_comp_cnt : Z;
  row_avg_sec : double;
  row_stall_sec : double;
  row_stall_cnt : Z;
  row_avg_ms : double;
  row_record_in : Z;
  row_record_drop : Z
}.

(** One chunk per [snprintf] (or string assignment) of the source. *)
Inductive Chunk : Type :=
| Text (s : string)
| LevelStatsHeader (cf_name : string)
| LevelStatsRow (r : LevelRow)
| LevelSummaryHeader
| LevelSummaryRow (level files : Z) (size_mb : double)
| DBStatsUptime (seconds_up interval_seconds_up : double)
| CumulativeWrites (writes keys batches : Z) (writes_per_batch gb_ingest : double)
    (stall_micros : Z)
| CumulativeWAL (writes syncs : Z) (writes_per_sync gb_written : double)
| IntervalWrites (writes keys batches : Z) (writes_per_batch mb_ingest : double)
    (stall_micros : Z)
| IntervalWAL (writes syncs : Z) (writes_per_sync mb_written : double)
| FlushLine (accumulative interval : double)
| StallsSecs (level0_slowdown level0_numfiles memtable_compaction
    leveln_slowdown_soft leveln_slowdown_hard : double)
| StallsCount (level0_slowdown level0_numfiles memtable_compaction
    leveln_slowdown_soft leveln_slowdown_hard : Z).

Definition PrintLevelStatsHeader (cf_name : string) : Chunk :=
  LevelStatsHeader cf_name.

Definition PrintLevelStats (name : string) (num_files being_compacted : Z)
    (total_file_size score w_amp stall_us : double) (stalls : Z)
    (stats : CompactionStats) : Chunk :=
  let bytes_read := wrap64 (bytes_readn stats + bytes_readnp1 stats) in
  let bytes_new := wrap64 (bytes_written stats - bytes_readnp1 stats) in
  let elapsed := (Z2D (wrap64 (micros stats + 1)) / kMicros)%Qc in
  LevelStatsRow
    {| row_name := name;
       row_files := num_files;
       row_being_compacted := being_compacted;
       row_size_mb := (total_file_size / kMB)%Qc;
       row_score := score;
       row_read_gb := (Z2D bytes_read / kGB)%Qc;
       row_rn_gb := (Z2D (bytes_readn stats) / kGB)%Qc;
       row_rnp1_gb := (Z2D (bytes_readnp1 stats) / kGB)%Qc;
       row_write_gb := (Z2D (bytes_written stats) / kGB)%Qc;
       row_wnew_gb := (Z2D bytes_new / kGB)%Qc;
       row_moved_gb := (Z2D (bytes_moved stats) / kGB)%Qc;
       row_w_amp := w_amp;
       row_rd_mbs := (Z2D bytes_read / kMB / elapsed)%Qc;
       row_wr_mbs := (Z2D (bytes_written stats) / kMB / elapsed)%Qc;
       row_comp_sec := (Z2D (micros stats) / kMicros)%Qc;
       row_comp_cnt := count stats;
       row_avg_sec :=
         if count stats =? 0 then Z2D 0
         else (Z2D (micros stats) / kMicros / Z2D (count stats))%Qc;
       row_stall_sec := (stall_us / kMicros)%Qc;
       row_stall_cnt := stalls;
       row_avg_ms :=
         if stalls =? 0 then Z2D 0
         else (stall_us / Z2D 1000 / Z2D stalls)%Qc;
       row_record_in := num_input_records stats;
       row_record_drop := num_dropped_records stats |}.

(** ** The DB-wide report *)

(** [now] is the reading of [env_->NowMicros()] made by the call. *)
Definition DumpDBStats (now : Z) (s : InternalStats) (value : list Chunk)
    : InternalStats * list Chunk :=
  let snap := db_stats_snapshot_ s in
  let seconds_up := (Z2D (wrap64 (wrap64 (now - started_at_ s) + 1)) / kMicros)%Qc in
  let interval_seconds_up := (seconds_up - DBStatsSnapshot.seconds_up snap)%Qc in
  let value := value ++ [DBStatsUptime seconds_up interval_seconds_up] in
  (* Cumulative *)
  let user_bytes_written := db_stats_ s BYTES_WRITTEN in
  let num_keys_written := db_stats_ s NUMBER_KEYS_WRITTEN in
  let write_other := db_stats_ s WRITE_DONE_BY_OTHER in
  let write_self := db_stats_ s WRITE_DONE_BY_SELF in
  let wal_bytes := db_stats_ s WAL_FILE_BYTES in
  let wal_synced := db_stats_ s WAL_FILE_SYNCED in
  let write_with_wal := db_stats_ s WRITE_WITH_WAL in
  let write_stall_micros := db_stats_ s WRITE_STALL_MICROS in
  let value := value ++
    [CumulativeWrites (wrap64 (write_other + write_self)) num_keys_written
       write_self
       (Z2D (wrap64 (write_other + write_self)) / Z2D (wrap64 (write_self + 1)))%Qc
       (Z2D user_bytes_written / kGB)%Qc write_stall_micros] in
  (* WAL *)
  let value := value ++
    [CumulativeWAL write_with_wal wal_synced
       (Z2D write_with_wal / Z2D (wrap64 (wal_synced + 1)))%Qc
       (Z2D wal_bytes / kGB)%Qc] in
  (* Interval *)
  let interval_write_other :=
    wrap64 (write_other - DBStatsSnapshot.write_other snap) in
  let interval_write_self :=
    wrap64 (write_self - DBStatsSnapshot.write_self snap) in
  let interval_num_keys_written :=
    wrap64 (num_keys_written - DBStatsSnapshot.num_keys_written snap) in
  let value := value ++
    [IntervalWrites (wrap64 (interval_write_other + interval_write_self))
       interval_num_keys_written interval_write_self
       (Z2D (wrap64 (interval_write_other + interval_write_self)) /
          Z2D (wrap64 (interval_write_self + 1)))%Qc
       (Z2D (wrap64 (user_bytes_written - DBStatsSnapshot.ingest_bytes snap)) /
          kMB)%Qc
       (wrap64 (write_stall_micros - DBStatsSnapshot.write_stall_micros snap))] in
  let interval_write_with_wal :=
    wrap64 (write_with_wal - DBStatsSnapshot.write_with_wal snap) in
  let interval_wal_synced :=
    wrap64 (wal_synced - DBStatsSnapshot.wal_synced snap) in
  let interval_wal_bytes :=
    wrap64 (wal_bytes - DBStatsSnapshot.wal_bytes snap) in
  let value := value ++
    [IntervalWAL interval_write_with_wal interval_wal_synced
       (Z2D interval_write_with_wal / Z2D (wrap64 (interval_wal_synced + 1)))%Qc
       (Z2D interval_wal_bytes / kGB)%Qc] in
  let snap' :=
    {| DBStatsSnapshot.seconds_up := seconds_up;
       DBStatsSnapshot.ingest_bytes := user_bytes_written;
       DBStatsSnapshot.write_other := write_other;
       DBStatsSnapshot.write_self := write_self;
       DBStatsSnapshot.num_keys_written := num_keys_written;
       DBStatsSnapshot.wal_bytes := wal_bytes;
       DBStatsSnapshot.wal_synced := wal_synced;
       DBStatsSnapshot.write_with_wal := write_with_wal;
       DBStatsSnapshot.write_stall_micros := write_stall_micros |} in
  (set_db_stats_snapshot s snap', value).

(** ** The per-column-family report *)

(** The running totals of the level loop of [DumpCFStats]. *)
Record CFTotals : Type := mkCFTotals {
  stats_sum : CompactionStats;
  total_files : Z;
  total_files_being_compacted : Z;
  total_file_size : double;
  total_slowdown_soft : Z;
  total_slowdown_count_soft : Z;
  total_slowdown_hard : Z;
  total_slowdown_count_hard : Z;
  total_stall_count : Z;
  total_stall_us : double
}.

Definition CFTotals_init : CFTotals :=
  mkCFTotals (CompactionStats_init 0) 0 0 (Z2D 0) 0 0 0 0 0 (Z2D 0).

Definition num_levels_to_check (s : InternalStats) : Z :=
  match compaction_style (cfd_ s) with
  | kCompactionStyleUniversal => 1
  | kCompactionStyleFIFO => 1
  | _ => num_levels (storage_info (current (cfd_ s))) - 1
  end.

(** Compaction scores, restored from score order to level order. *)
Definition level_compaction_scores (s : InternalStats) : list double :=
  let vstorage := storage_info (current (cfd_ s)) in
  fold_left
    (fun compaction_score i =>
       set_at compaction_score (CompactionScoreLevel vstorage i)
         (CompactionScore vstorage i))
    (seqZ 0 (num_levels_to_check s))
    (vector_init (number_levels_ s) (Z2D 0)).

(** The number of files being compacted, for each level. *)
Definition level_files_being_compacted (s : InternalStats) : list Z :=
  let vstorage := storage_info (current (cfd_ s)) in
  fold_left
    (fun files_being_compacted level =>
       fold_left
         (fun fbc f =>
            if being_compacted f then set_at fbc level (at_ 0 fbc level + 1)
            else fbc)
         (LevelFiles vstorage level) files_being_compacted)
    (seqZ 0 (num_levels_to_check s))
    (vector_init (number_levels_ s) 0).

(** The condition under which the level loop prints a row for [level]. *)
Definition level_is_rendered (s : InternalStats) (level : Z) : bool :=
  (0 <? micros (at_ zero_stats (comp_stats_ s) level)) ||
  (0 <? NumLevelFiles (storage_info (current (cfd_ s))) level).

(** The level's stall count and stall time, as the loop computes them. *)
Definition level_stalls (s : InternalStats) (level : Z) : Z :=
  if level =? 0 then
    wrap64 (wrap64 (cf_stats_count_ s LEVEL0_SLOWDOWN +
                    cf_stats_count_ s LEVEL0_NUM_FILES) +
            cf_stats_count_ s MEMTABLE_COMPACTION)
  else
    wrap64 (at_ 0 (stall_leveln_slowdown_count_soft_ s) level +
            at_ 0 (stall_leveln_slowdown_count_hard_ s) level).

Definition level_stall_us (s : InternalStats) (level : Z) : double :=
  if level =? 0 then
    Z2D (wrap64 (wrap64 (cf_stats_value_ s LEVEL0_SLOWDOWN +
                         cf_stats_value_ s LEVEL0_NUM_FILES) +
                 cf_stats_value_ s MEMTABLE_COMPACTION))
  else
    Z2D (wrap64 (at_ 0 (stall_leveln_slowdown_soft_ s) level +
                 at_ 0 (stall_leveln_slowdown_hard_ s) level)).

(** The write amplification printed in the row of one level. *)
Definition level_w_amp (stats : CompactionStats) : double :=
  if bytes_readn stats =? 0 then Z2D 0
  else (Z2D (bytes_written stats) / Z2D (bytes_readn stats))%Qc.

(** The row printed for [level]. *)
Definition level_row (s : InternalStats) (compaction_score : list double)
    (files_being_compacted : list Z) (level : Z) : Chunk :=
  let vstorage := storage_info (current (cfd_ s)) in
  let stats := at_ zero_stats (comp_stats_ s) level in
  PrintLevelStats (String.append "L" (ToString level)) (NumLevelFiles vstorage level)
    (at_ 0 files_being_compacted level)
    (Z2D (NumLevelBytes vstorage level)) (at_ (Z2D 0) compaction_score level)
    (level_w_amp stats) (level_stall_us s level) (level_stalls s level) stats.

(** One iteration of the level loop: the totals and the text so far. *)
Definition DumpCFStats_level (s : InternalStats) (compaction_score : list double)
    (files_being_compacted : list Z) (acc : CFTotals * list Chunk) (level : Z)
    : CFTotals * list Chunk :=
  let '(t, value) := acc in
  let vstorage := storage_info (current (cfd_ s)) in
  let files := NumLevelFiles vstorage level in
  let total_files' := total_files t + files in
  let total_fbc' :=
    total_files_being_compacted t + at_ 0 files_being_compacted level in
  if level_is_rendered s level then
    let stalls := level_stalls s level in
    let stall_us := level_stall_us s level in
    let stats := at_ zero_stats (comp_stats_ s) level in
    ({| stats_sum := Add (stats_sum t) stats;
        total_files := total_files';
        total_files_being_compacted := total_fbc';
        total_file_size :=
          (total_file_size t + Z2D (NumLevelBytes vstorage level))%Qc;
        total_slowdown_soft :=
          wrap64 (total_slowdown_soft t +
                  at_ 0 (stall_leveln_slowdown_soft_ s) level);
        total_slowdown_count_soft :=
          wrap64 (total_slowdown_count_soft t +
                  at_ 0 (stall_leveln_slowdown_count_soft_ s) level);
        total_slowdown_hard :=
          wrap64 (total_slowdown_hard t +
                  at_ 0 (stall_leveln_slowdown_hard_ s) level);
        total_slowdown_count_hard :=
          wrap64 (total_slowdown_count_hard t +
                  at_ 0 (stall_leveln_slowdown_count_hard_ s) level);
        total_stall_count := wrap64 (total_stall_count t + stalls);
        total_stall_us := (total_stall_us t + stall_us)%Qc |},
     value ++ [level_row s compaction_score files_being_compacted level])
  else
    ({| stats_sum := stats_sum t;
        total_files := total_files';
        total_files_being_compacted := total_fbc';
        total_file_size := total_file_size t;
        total_slowdown_soft := total_slowdown_soft t;
        total_slowdown_count_soft := total_slowdown_count_soft t;
        total_slowdown_hard := total_slowdown_hard t;
        total_slowdown_count_hard := total_slowdown_count_hard t;
        total_stall_count := total_stall_count t;
        total_stall_us := total_stall_us t |},
     value).

(** The level loop, over the levels [0 .. number_levels_ - 1]. *)
Definition DumpCFStats_levels (s : InternalStats) (value : list Chunk)
    : CFTotals * list Chunk :=
  fold_left
    (DumpCFStats_level s (level_compaction_scores s)
       (level_files_being_compacted s))
    (seqZ 0 (number_levels_ s)) (CFTotals_init, value).

Definition DumpCFStats (s : InternalStats) (value : list Chunk)
    : InternalStats * list Chunk :=
  let snap := cf_stats_snapshot_ s in
  let value := value ++ [PrintLevelStatsHeader (GetName (cfd_ s))] in
  let '(t, value) := DumpCFStats_levels s value in
  let curr_ingest := cf_stats_value_ s BYTES_FLUSHED in
  (* Cumulative summary *)
  let w_amp :=
    (Z2D (bytes_written (stats_sum t)) / Z2D (wrap64 (curr_ingest + 1)))%Qc in
  let value := value ++
    [PrintLevelStats "Sum" (total_files t) (total_files_being_compacted t)
       (total_file_size t) (Z2D 0) w_amp (total_stall_us t)
       (total_stall_count t) (stats_sum t)] in
  (* Interval summary *)
  let interval_ingest :=
    wrap64 (wrap64 (curr_ingest - CFStatsSnapshot.ingest_bytes snap) + 1) in
  let interval_stats := Subtract (stats_sum t) (CFStatsSnapshot.comp_stats snap) in
  let w_amp := (Z2D (bytes_written interval_stats) / Z2D interval_ingest)%Qc in
  let value := value ++
    [PrintLevelStats "Int" 0 0 (Z2D 0) (Z2D 0) w_amp
       (total_stall_us t - CFStatsSnapshot.stall_us snap)%Qc
       (wrap64 (total_stall_count t - CFStatsSnapshot.stall_count snap))
       interval_stats] in
  let value := value ++
    [FlushLine (Z2D curr_ingest / kGB)%Qc (Z2D interval_ingest / kGB)%Qc] in
  let value := value ++
    [StallsSecs (Z2D (cf_stats_value_ s LEVEL0_SLOWDOWN) / kMicros)%Qc
       (Z2D (cf_stats_value_ s LEVEL0_NUM_FILES) / kMicros)%Qc
       (Z2D (cf_stats_value_ s MEMTABLE_COMPACTION) / kMicros)%Qc
       (Z2D (total_slowdown_soft t) / kMicros)%Qc
       (Z2D (total_slowdown_hard t) / kMicros)%Qc] in
  let value := value ++
    [StallsCount (cf_stats_count_ s LEVEL0_SLOWDOWN)
       (cf_stats_count_ s LEVEL0_NUM_FILES)
       (cf_stats_count_ s MEMTABLE_COMPACTION)
       (total_slowdown_count_soft t) (total_slowdown_count_hard t)] in
  let snap' :=
    {| CFStatsSnapshot.ingest_bytes := curr_ingest;
       CFStatsSnapshot.comp_stats := stats_sum t;
       CFStatsSnapshot.stall_us := total_stall_us t;
       CFStatsSnapshot.stall_count := total_stall_count t |} in
  (set_cf_stats_snapshot s snap', value).

(** ** The string-report path *)

Definition kMaxUint64 : Z := two64 - 1.

Definition is_digit (c : ascii) : bool :=
  let n := Z.of_N (N_of_ascii c) in (48 <=? n) && (n <=? 57).

(** Modelled from the spec: [ConsumeDecimalNumber], the helper of
    [util/logging] that parses the decimal integer suffix of the
    files-at-level property; it is not part of [db/internal_stats.cc].  It
    consumes the longest run of leading decimal digits of the slice and
    yields their value as a [uint64_t] together with the rest of the slice;
    it fails when there is no digit or when the value does not fit 64
    bits. *)
Fixpoint ConsumeDecimalNumber_from (v : Z) (digits : nat) (in_ : string)
    : option (Z * string) :=
  match in_ with
  | String c rest =>
      if is_digit c then
        let delta := Z.of_N (N_of_ascii c) - 48 in
        if (kMaxUint64 / 10 <? v) ||
           ((v =? kMaxUint64 / 10) && (kMaxUint64 mod 10 <? delta))
        then None
        else ConsumeDecimalNumber_from (v * 10 + delta) (S digits) rest
      else if (0 <? digits)%nat then Some (v, in_) else None
  | EmptyString => if (0 <? digits)%nat then Some (v, in_) else None
  end.

Definition ConsumeDecimalNumber (in_ : string) : option (Z * string) :=
  ConsumeDecimalNumber_from 0 0 in_.

(** The header and the rows of the [kLevelStats] table. *)
Definition level_summary (s : InternalStats) : list Chunk :=
  let vstorage := storage_info (current (cfd_ s)) in
  LevelSummaryHeader ::
  map (fun level =>
         LevelSummaryRow level (NumLevelFiles vstorage level)
           (Z2D (NumLevelBytes vstorage level) / kMB)%Qc)
      (seqZ 0 (number_levels_ s)).

(** Every case of [GetStringProperty] but [kStats], whose two calls of
    [GetStringProperty] itself are made at the kinds [kCFStats] and
    [kDBStats] and so land here.  The result is the returned flag, the
    state and the content of [*value] after the call. *)
Definition GetStringProperty_case (now : Z) (property_type : DBPropertyType)
    (property : string) (s : InternalStats) (value : list Chunk)
    : bool * InternalStats * list Chunk :=
  let current := current (cfd_ s) in
  let vstorage := storage_info current in
  match property_type with
  | kNumFilesAtLevel =>
      let in_ :=
        remove_prefix (String.length "rocksdb.num-files-at-level") property in
      match ConsumeDecimalNumber in_ with
      | Some (level, in_) =>
          if negb (slice_empty in_) || (number_levels_ s <=? to_int level)
          then (false, s, value)
          else (true, s, [Text (ToString (NumLevelFiles vstorage (to_int level)))])
      | None => (false, s, value)
      end
  | kLevelStats => (true, s, value ++ level_summary s)
  | kCFStats => let '(s', value') := DumpCFStats s value in (true, s', value')
  | kDBStats => let '(s', value') := DumpDBStats now s value in (true, s', value')
  | kSsTables => (true, s, [Text (DebugString current)])
  | _ => (false, s, value)
  end.

Definition GetStringProperty (now : Z) (property_type : DBPropertyType)
    (property : string) (s : InternalStats) (value : list Chunk)
    : bool * InternalStats * list Chunk :=
  match property_type with
  | kStats =>
      let '(ok, s, value) :=
        GetStringProperty_case now kCFStats "rocksdb.cfstats" s value in
      if negb ok then (false, s, value)
      else
        let '(ok, s, value) :=
          GetStringProperty_case now kDBStats "rocksdb.dbstats" s value in
        if negb ok then (false, s, value) else (true, s, value)
  | _ => GetStringProperty_case now property_type property s value
  end.

(** The string query as an administrative caller issues it: the kind is
    the one the catalog resolves for the property name. *)
Definition GetProperty (now : Z) (property : string) (s : InternalStats)
    : bool * InternalStats * list Chunk :=
  GetStringProperty now (property_type (GetPropertyType property)) property s [].

(** ** Observations on a report *)

(** The interval figures of a chunk: the numbers it prints for the span
    since the last report.  The uptime line is left out: its interval is an
    elapsed time. *)
Definition interval_figures (c : Chunk) : list double :=
  match c with
  | IntervalWrites w k b wpb mb sm => [Z2D w; Z2D k; Z2D b; wpb; mb; Z2D sm]
  | IntervalWAL w sy wps mbw => [Z2D w; Z2D sy; wps; mbw]
  | LevelStatsRow r =>
      if (row_name r =? "Int")%string then
        [row_read_gb r; row_rn_gb r; row_rnp1_gb r; row_write_gb r;
         row_wnew_gb r; row_moved_gb r; row_w_amp r; row_rd_mbs r;
         row_wr_mbs r; row_comp_sec r; Z2D (row_comp_cnt r); row_avg_sec r;
         row_stall_sec r; Z2D (row_stall_cnt r); row_avg_ms r;
         Z2D (row_record_in r); Z2D (row_record_drop r)]
      else []
  | FlushLine _ interval => [interval]
  | _ => []
  end.

Definition report_interval_figures (value : list Chunk) : list double :=
  concat (map interval_figures value).

(** The names of the rows of the level table, in the order printed. *)
Definition row_names (value : list Chunk) : list string :=
  concat (map (fun c => match c with
                        | LevelStatsRow r => [row_name r]
                        | _ => []
                        end) value).

(** The unsigned difference of two counters: the true difference when the
    subtrahend is the smaller one, and 2^64 more than the (negative) true
    difference otherwise. *)
Definition diff64 (cur snap : Z) : Z :=
  if snap <=? cur then cur - snap else cur - snap + two64.

Ltac case_ifs :=
  repeat match goal with
         | |- context [if ?c then _ else _] => destruct c
         end.

(** ** Names for the parts of the per-column-family report *)

(** The levels for which the level loop prints a row. *)
Definition rendered_levels (s : InternalStats) : list Z :=
  List.filter (level_is_rendered s) (seqZ 0 (number_levels_ s)).

(** The totals the level loop ends with. *)
Definition cf_totals (s : InternalStats) : CFTotals :=
  fst (DumpCFStats_levels s []).

(** The value of [interval_ingest]. *)
Definition cf_interval_ingest (s : InternalStats) : Z :=
  wrap64 (wrap64 (cf_stats_value_ s BYTES_FLUSHED -
                  CFStatsSnapshot.ingest_bytes (cf_stats_snapshot_ s)) + 1).

(** The value of [interval_stats]. *)
Definition cf_interval_stats (s : InternalStats) : CompactionStats :=
  Subtract (stats_sum (cf_totals s))
    (CFStatsSnapshot.comp_stats (cf_stats_snapshot_ s)).

(** The "Sum" row. *)
Definition cf_sum_row (s : InternalStats) : Chunk :=
  let t := cf_totals s in
  PrintLevelStats "Sum" (total_files t) (total_files_being_compacted t)
    (total_file_size t) (Z2D 0)
    (Z2D (bytes_written (stats_sum t)) /
       Z2D (wrap64 (cf_stats_value_ s BYTES_FLUSHED + 1)))%Qc
    (total_stall_us t) (total_stall_count t) (stats_sum t).

(** The "Int" row. *)
Definition cf_int_row (s : InternalStats) : Chunk :=
  let t := cf_totals s in
  let snap := cf_stats_snapshot_ s in
  PrintLevelStats "Int" 0 0 (Z2D 0) (Z2D 0)
    (Z2D (bytes_written (cf_interval_stats s)) / Z2D (cf_interval_ingest s))%Qc
    (total_stall_us t - CFStatsSnapshot.stall_us snap)%Qc
    (wrap64 (total_stall_count t - CFStatsSnapshot.stall_count snap))
    (cf_interval_stats s).

(** The lines that follow the table. *)
Definition cf_flush_line (s : InternalStats) : Chunk :=
  FlushLine (Z2D (cf_stats_value_ s BYTES_FLUSHED) / kGB)%Qc
    (Z2D (cf_interval_ingest s) / kGB)%Qc.

Definition cf_stall_lines (s : InternalStats) : list Chunk :=
  let t := cf_totals s in
  [StallsSecs (Z2D (cf_stats_value_ s LEVEL0_SLOWDOWN) / kMicros)%Qc
     (Z2D (cf_stats_value_ s LEVEL0_NUM_FILES) / kMicros)%Qc
     (Z2D (cf_stats_value_ s MEMTABLE_COMPACTION) / kMicros)%Qc
     (Z2D (total_slowdown_soft t) / kMicros)%Qc
     (Z2D (total_slowdown_hard t) / kMicros)%Qc;
   StallsCount (cf_stats_count_ s LEVEL0_SLOWDOWN)
     (cf_stats_count_ s LEVEL0_NUM_FILES)
     (cf_stats_count_ s MEMTABLE_COMPACTION)
     (total_slowdown_count_soft t) (total_slowdown_count_hard t)].

(** The snapshot a per-column-family report stores. *)
Definition cf_next_snapshot (s : InternalStats) : CFStatsSnapshot.t :=
  let t := cf_totals s in
  {| CFStatsSnapshot.ingest_bytes := cf_stats_value_ s BYTES_FLUSHED;
     CFStatsSnapshot.comp_stats := stats_sum t;
     CFStatsSnapshot.stall_us := total_stall_us t;
     CFStatsSnapshot.stall_count := total_stall_count t |}.

(** The chunks that print interval figures. *)
Definition is_interval_chunk (c : Chunk) : bool :=
  match c with
  | IntervalWrites _ _ _ _ _ _ => true
  | IntervalWAL _ _ _ _ => true
  | LevelStatsRow r => (row_name r =? "Int")%string
  | FlushLine _ _ => true
  | _ => false
  end.

(** Field-wise difference of two statistics. *)
Definition CompactionStats_minus (a b : CompactionStats) : CompactionStats :=
  {| micros := micros a - micros b;
     bytes_readn := bytes_readn a - bytes_readn b;
     bytes_readnp1 := bytes_readnp1 a - bytes_readnp1 b;
     bytes_written := bytes_written a - bytes_written b;
     bytes_moved := bytes_moved a - bytes_moved b;
     num_input_records := num_input_records a - num_input_records b;
     num_dropped_records := num_dropped_records a - num_dropped_records b;
     count := count a - count b |}.

(** ** Example states *)

(** A column family with three levels: two files in level 0, five in
    level 1 of which one is being compacted, and one compaction of
    level 1 on record. *)
Definition example_vstorage : VersionStorageInfo :=
  {| num_levels := 3;
     files_ :=
       [ [mkFileMetaData false; mkFileMetaData false];
         [mkFileMetaData true; mkFileMetaData false; mkFileMetaData false;
          mkFileMetaData false; mkFileMetaData false];
         [] ];
     level_bytes_ := [2097152; 5242880; 0];
     compaction_score_ := [Z2D 2; Z2D 1];
     compaction_level_ := [1; 0] |}.

Definition example_stats : InternalStats :=
  {| db_stats_ := fun k =>
       match k with
       | BYTES_WRITTEN => 4096
       | NUMBER_KEYS_WRITTEN => 12
       | WRITE_DONE_BY_OTHER => 2
       | WRITE_DONE_BY_SELF => 3
       | WRITE_WITH_WAL => 5
       | WAL_FILE_SYNCED => 1
       | WAL_FILE_BYTES => 8192
       | WRITE_STALL_MICROS => 0
       end;
     cf_stats_value_ := fun k =>
       match k with BYTES_FLUSHED => 52428800 | _ => 0 end;
     cf_stats_count_ := fun _ => 0;
     comp_stats_ :=
       [ zero_stats;
         mkCompactionStats 2000000 104857600 52428800 125829120 0 10 2 1;
         zero_stats ];
     stall_leveln_slowdown_hard_ := [0; 0; 0];
     stall_leveln_slowdown_count_hard_ := [0; 0; 0];
     stall_leveln_slowdown_soft_ := [0; 0; 0];
     stall_leveln_slowdown_count_soft_ := [0; 0; 0];
     cf_stats_snapshot_ := CFStatsSnapshot.mk zero_stats 0 (Z2D 0) 0;
     db_stats_snapshot_ := DBStatsSnapshot.mk 0 0 0 0 0 0 0 0 (Z2D 0);
     number_levels_ := 3;
     started_at_ := 100;
     cfd_ :=
       {| GetName := "default";
          compaction_style := kCompactionStyleLevel;
          current := mkVersion example_vstorage "" 4096 |} |}.

(** A column family whose level 0 holds flushed data only: nothing was
    read from a level to write it, [bytes_readn] is zero. *)
Definition flushed_stats : InternalStats :=
  {| db_stats_ := db_stats_ example_stats;
     cf_stats_value_ := fun k =>
       match k with BYTES_FLUSHED => 2097152 | _ => 0 end;
     cf_stats_count_ := fun _ => 0;
     comp_stats_ :=
       [ mkCompactionStats 1000 0 0 2097152 0 0 0 1; zero_stats; zero_stats ];
     stall_leveln_slowdown_hard_ := [0; 0; 0];
     stall_leveln_slowdown_count_hard_ := [0; 0; 0];
     stall_leveln_slowdown_soft_ := [0; 0; 0];
     stall_leveln_slowdown_count_soft_ := [0; 0; 0];
     cf_stats_snapshot_ := CFStatsSnapshot.mk zero_stats 0 (Z2D 0) 0;
     db_stats_snapshot_ := DBStatsSnapshot.mk 0 0 0 0 0 0 0 0 (Z2D 0);
     number_levels_ := 3;
     started_at_ := 100;
     cfd_ :=
       {| GetName := "default";
          compaction_style := kCompactionStyleLevel;
          current :=
            mkVersion
              {| num_levels := 3;
                 files_ := [[mkFileMetaData false; mkFileMetaData false]; []; []];
                 level_bytes_ := [2097152; 0; 0];
                 compaction_score_ := [Z2D 1; Z2D 0];
                 compaction_level_ := [0; 1] |} "" 0 |} |}.

(** A state whose DB-wide snapshot holds more self-done writes (5) than
    the counter (3). *)
Definition rewound_stats : InternalStats :=
  set_db_stats_snapshot example_stats
    (DBStatsSnapshot.mk 0 0 0 0 0 5 0 0 (Z2D 0)).

(** The state [flushed_stats] with 536870 bytes flushed, just below half
    a thousandth of a GB (536870.912 bytes). *)
Definition boundary_stats : InternalStats :=
  mkInternalStats (db_stats_ flushed_stats)
    (fun k => match k with BYTES_FLUSHED => 536870 | _ => 0 end)
    (cf_stats_count_ flushed_stats) (comp_stats_ flushed_stats)
    (stall_leveln_slowdown_hard_ flushed_stats)
    (stall_leveln_slowdown_count_hard_ flushed_stats)
    (stall_leveln_slowdown_soft_ flushed_stats)
    (stall_leveln_slowdown_count_soft_ flushed_stats)
    (cf_stats_snapshot_ flushed_stats) (db_stats_snapshot_ flushed_stats)
    (number_levels_ flushed_stats) (started_at_ flushed_stats)
    (cfd_ flushed_stats).

(** A figure as [%.3f] shows it, in thousandths: the multiple of 0.001
    nearest to it (a tie, which [printf] breaks to even, goes up here). *)
Definition thousandths (q : double) : Z :=
  Qfloor (this q * 1000 + (1 # 2))%Q.

(** ** The specification's formulas *)

(** The write amplification in the specification's words: the bytes
    written over the larger of the baseline and one. *)
Definition spec_w_amp (written baseline : Z) : double :=
  (Z2D written / Z2D (Z.max baseline 1))%Qc.

(** The snapshot field that holds the counter [k]. *)
Definition db_snapshot_value (snap : DBStatsSnapshot.t)
    (k : InternalDBStatsType) : Z :=
  match k with
  | WAL_FILE_BYTES => DBStatsSnapshot.wal_bytes snap
  | WAL_FILE_SYNCED => DBStatsSnapshot.wal_synced snap
  | BYTES_WRITTEN => DBStatsSnapshot.ingest_bytes snap
  | NUMBER_KEYS_WRITTEN => DBStatsSnapshot.num_keys_written snap
  | WRITE_DONE_BY_OTHER => DBStatsSnapshot.write_other snap
  | WRITE_DONE_BY_SELF => DBStatsSnapshot.write_self snap
  | WRITE_WITH_WAL => DBStatsSnapshot.write_with_wal snap
  | WRITE_STALL_MICROS => DBStatsSnapshot.write_stall_micros snap
  end.

(** The DB-wide counters and their snapshot hold [uint64_t] values. *)
Definition db_counters_wf (s : InternalStats) : Prop :=
  forall k, is_uint64 (db_stats_ s k) /\
            is_uint64 (db_snapshot_value (db_stats_snapshot_ s) k).

(** No DB-wide counter is below its snapshot. *)
Definition db_snapshot_behind (s : InternalStats) : Prop :=
  forall k, db_snapshot_value (db_stats_snapshot_ s) k <= db_stats_ s k.

(** The two interval lines of the DB-wide report, for the interval value
    [d k] of each counter [k]. *)
Definition db_interval_chunks (d : InternalDBStatsType -> Z) : list Chunk :=
  [IntervalWrites (wrap64 (d WRITE_DONE_BY_OTHER + d WRITE_DONE_BY_SELF))
     (d NUMBER_KEYS_WRITTEN) (d WRITE_DONE_BY_SELF)
     (Z2D (wrap64 (d WRITE_DONE_BY_OTHER + d WRITE_DONE_BY_SELF)) /
        Z2D (wrap64 (d WRITE_DONE_BY_SELF + 1)))%Qc
     (Z2D (d BYTES_WRITTEN) / kMB)%Qc (d WRITE_STALL_MICROS);
   IntervalWAL (d WRITE_WITH_WAL) (d WAL_FILE_SYNCED)
     (Z2D (d WRITE_WITH_WAL) / Z2D (wrap64 (d WAL_FILE_SYNCED + 1)))%Qc
     (Z2D (d WAL_FILE_BYTES) / kGB)%Qc].

(** The "Int" row and the flush line of the per-column-family report, for
    given interval values of the compaction statistics, of the flushed
    bytes and of the stall time and count; [flushed] is the cumulative
    figure of the flush line. *)
Definition cf_interval_chunks (flushed : Z) (stats : CompactionStats)
    (ingest : Z) (stall_us : double) (stall_count : Z) : list Chunk :=
  [PrintLevelStats "Int" 0 0 (Z2D 0) (Z2D 0)
     (Z2D (bytes_written stats) / Z2D (wrap64 (ingest + 1)))%Qc
     stall_us stall_count stats;
   FlushLine (Z2D flushed / kGB)%Qc (Z2D (wrap64 (ingest + 1)) / kGB)%Qc].

(** The per-column-family counters that are diffed outside
    [CompactionStats] hold [uint64_t] values. *)
Definition cf_counters_wf (s : InternalStats) : Prop :=
  is_uint64 (cf_stats_value_ s BYTES_FLUSHED) /\
  is_uint64 (CFStatsSnapshot.ingest_bytes (cf_stats_snapshot_ s)) /\
  is_uint64 (CFStatsSnapshot.stall_count (cf_stats_snapshot_ s)).

(** The per-column-family snapshot is not ahead of the totals. *)
Definition cf_snapshot_behind (s : InternalStats) : Prop :=
  CompactionStats_le (CFStatsSnapshot.comp_stats (cf_stats_snapshot_ s))
    (stats_sum (cf_totals s)) /\
  CFStatsSnapshot.ingest_bytes (cf_stats_snapshot_ s)
    <= cf_stats_value_ s BYTES_FLUSHED /\
  CFStatsSnapshot.stall_count (cf_stats_snapshot_ s)
    <= total_stall_count (cf_totals s).

(** The value of a decimal numeral read after the digits that made [v]. *)
Fixpoint digits_value (d : Decimal.uint) (v : Z) : Z :=
  match d with
  | Decimal.Nil => v
  | Decimal.D0 l => digits_value l (v * 10 + 0)
  | Decimal.D1 l => digits_value l (v * 10 + 1)
  | Decimal.D2 l => digits_value l (v * 10 + 2)
  | Decimal.D3 l => digits_value l (v * 10 + 3)
  | Decimal.D4 l => digits_value l (v * 10 + 4)
  | Decimal.D5 l => digits_value l (v * 10 + 5)
  | Decimal.D6 l => digits_value l (v * 10 + 6)
  | Decimal.D7 l => digits_value l (v * 10 + 7)
  | Decimal.D8 l => digits_value l (v * 10 + 8)
  | Decimal.D9 l => digits_value l (v * 10 + 9)
  end.

(** ** The in-lock integer path

    [GetIntProperty] reads the memtables, the compaction picker, the
    snapshot list and the file-deletion switch through [cfd_] and [db],
    which are declared outside [db/internal_stats.cc]; the records below
    hold what the accessors called by [GetIntProperty] return. *)

Record MemTable : Type := mkMemTable {
  (* mem()->ApproximateMemoryUsage() *)
  ApproximateMemoryUsage : Z;
  (* mem()->GetNumEntries() *)
  GetNumEntries : Z
}.

Record MemTableList : Type := mkMemTableList {
  (* imm()->size() *)
  imm_size : Z;
  (* imm()->IsFlushPending() *)
  IsFlushPending : bool;
  (* imm()->ApproximateMemoryUsage() *)
  imm_ApproximateMemoryUsage : Z;
  (* imm()->current()->GetTotalNumEntries() *)
  GetTotalNumEntries : Z
}.

Record SnapshotList : Type := mkSnapshotList {
  (* snapshots().count() *)
  snapshot_count : Z;
  (* snapshots().GetOldestSnapshotTime(), an int64_t *)
  GetOldestSnapshotTime : Z
}.

Record DBImpl : Type := mkDBImpl {
  (* whether mutex_ is held by the caller, which AssertHeld() checks *)
  mutex_held : bool;
  snapshots : SnapshotList;
  IsFileDeletionsEnabled : bool
}.

(** What [GetIntProperty] reads through [cfd_] and [this] beside the
    fields of [InternalStats] the reports use. *)
Record InLockView : Type := mkInLockView {
  mem : MemTable;
  imm : MemTableList;
  (* cfd_->compaction_picker()->NeedsCompaction(vstorage) *)
  NeedsCompaction : bool;
  (* GetBackgroundErrorCount() *)
  GetBackgroundErrorCount : Z;
  (* vstorage->GetEstimatedActiveKeys() *)
  GetEstimatedActiveKeys : Z;
  (* cfd_->GetNumLiveVersions() *)
  GetNumLiveVersions : Z
}.

Definition bool_to_uint64 (b : bool) : Z := if b then 1 else 0.

(** [value] is the content of [*value] before the call.  The result is
    [None] when [db->mutex_.AssertHeld()] fails, and otherwise the returned
    flag with the content of [*value] after the call. *)
Definition GetIntProperty (property_type : DBPropertyType) (value : Z)
    (db : DBImpl) (view : InLockView) : option (bool * Z) :=
  if negb (mutex_held db) then None
  else
    Some
      match property_type with
      | kNumImmutableMemTable => (true, imm_size (imm view))
      | kMemtableFlushPending =>
          (true, bool_to_uint64 (IsFlushPending (imm view)))
      | kCompactionPending => (true, bool_to_uint64 (NeedsCompaction view))
      | kBackgroundErrors => (true, GetBackgroundErrorCount view)
      | kCurSizeActiveMemTable => (true, ApproximateMemoryUsage (mem view))
      | kCurSizeAllMemTables =>
          (true, wrap64 (ApproximateMemoryUsage (mem view) +
                         imm_ApproximateMemoryUsage (imm view)))
      | kNumEntriesInMutableMemtable => (true, GetNumEntries (mem view))
      | kNumEntriesInImmutableMemtable => (true, GetTotalNumEntries (imm view))
      | kEstimatedNumKeys =>
          (true, wrap64 (wrap64 (GetNumEntries (mem view) +
                                 GetTotalNumEntries (imm view)) +
                         GetEstimatedActiveKeys view))
      | kNumSnapshots => (true, snapshot_count (snapshots db))
      | kOldestSnapshotTime =>
          (true, wrap64 (GetOldestSnapshotTime (snapshots db)))
      | kNumLiveVersions => (true, GetNumLiveVersions view)
      | kIsFileDeletionEnabled =>
          (true, bool_to_uint64 (IsFileDeletionsEnabled db))
      | _ => (false, value)
      end.

(** The kinds [GetIntProperty] has a case for. *)
Definition in_lock_int_kinds : list DBPropertyType :=
  [kNumImmutableMemTable; kMemtableFlushPending; kCompactionPending;
   kBackgroundErrors; kCurSizeActiveMemTable; kCurSizeAllMemTables;
   kNumEntriesInMutableMemtable; kNumEntriesInImmutableMemtable;
   kEstimatedNumKeys; kNumSnapshots; kOldestSnapshotTime; kNumLiveVersions;
   kIsFileDeletionEnabled].

(** The kinds [GetStringProperty] has a case for. *)
Definition string_kinds : list DBPropertyType :=
  [kNumFilesAtLevel; kLevelStats; kStats; kCFStats; kDBStats; kSsTables].

(** The name the catalog matches for a kind, after the prefix; the
    files-at-level kind, matched by a prefix, and the unknown kind have
    none. *)
Definition property_name (k : DBPropertyType) : option string :=
  match k with
  | kUnknown => None
  | kNumFilesAtLevel => None
  | kLevelStats => Some "levelstats"
  | kCFStats => Some "cfstats"
  | kDBStats => Some "dbstats"
  | kStats => Some "stats"
  | kSsTables => Some "sstables"
  | kNumImmutableMemTable => Some "num-immutable-mem-table"
  | kMemtableFlushPending => Some "mem-table-flush-pending"
  | kCompactionPending => Some "compaction-pending"
  | kBackgroundErrors => Some "background-errors"
  | kCurSizeActiveMemTable => Some "cur-size-active-mem-table"
  | kCurSizeAllMemTables => Some "cur-size-all-mem-tables"
  | kNumEntriesInMutableMemtable => Some "num-entries-active-mem-table"
  | kNumEntriesInImmutableMemtable => Some "num-entries-imm-mem-tables"
  | kEstimatedNumKeys => Some "estimate-num-keys"
  | kEstimatedUsageByTableReaders => Some "estimate-table-readers-mem"
  | kIsFileDeletionEnabled => Some "is-file-deletions-enabled"
  | kNumSnapshots => Some "num-snapshots"
  | kOldestSnapshotTime => Some "oldest-snapshot-time"
  | kNumLiveVersions => Some "num-live-versions"
  end.

(** Example readings for the in-lock path. *)
Definition example_db : DBImpl :=
  {| mutex_held := true;
     snapshots := mkSnapshotList 2 1400000000;
     IsFileDeletionsEnabled := true |}.

Definition example_view : InLockView :=
  {| mem := mkMemTable 65536 120;
     imm := mkMemTableList 1 true 32768 80;
     NeedsCompaction := false;
     GetBackgroundErrorCount := 0;
     GetEstimatedActiveKeys := 1000;
     GetNumLiveVersions := 1 |}.

(** Every result [GetPropertyType] can return. *)
Definition catalog_results : list PropertyInfo :=
  mkPropertyInfo kUnknown false false ::
  mkPropertyInfo kUnknown true false ::
  mkPropertyInfo kNumFilesAtLevel false false ::
  map snd documented_properties.

(** The kinds whose string report appends to the output. *)
Definition report_kinds : list DBPropertyType :=
  [kLevelStats; kStats; kCFStats; kDBStats].

(** Two states hold the same counters, levels and column family: they
    differ at most in the two epoch snapshots. *)
Definition same_counters (s s' : InternalStats) : Prop :=
  db_stats_ s' = db_stats_ s /\
  cf_stats_value_ s' = cf_stats_value_ s /\
  cf_stats_count_ s' = cf_stats_count_ s /\
  comp_stats_ s' = comp_stats_ s /\
  stall_leveln_slowdown_hard_ s' = stall_leveln_slowdown_hard_ s /\
  stall_leveln_slowdown_count_hard_ s' = stall_leveln_slowdown_count_hard_ s /\
  stall_leveln_slowdown_soft_ s' = stall_leveln_slowdown_soft_ s /\
  stall_leveln_slowdown_count_soft_ s' = stall_leveln_slowdown_count_soft_ s /\
  number_levels_ s' = number_levels_ s /\
  started_at_ s' = started_at_ s /\
  cfd_ s' = cfd_ s.

(** The sum of [f] over a list of levels. *)
Definition Zsum (f : Z -> Z) (levels : list Z) : Z :=
  fold_right (fun level acc => f level + acc) 0 levels.

(** The number of files of a list that are flagged as being compacted. *)
Definition being_compacted_count (files : list FileMetaData) : Z :=
  Z.of_nat (length (List.filter being_compacted files)).

(** The chunks of a report that print cumulative figures only: everything
    but the interval chunks and the uptime line, which holds an elapsed
    time. *)
Definition is_cumulative_chunk (c : Chunk) : bool :=
  match c with
  | DBStatsUptime _ _ => false
  | _ => negb (is_interval_chunk c)
  end.

(** The example column family with one file in its last level, level 2,
    which is being compacted. *)
Definition last_level_stats : InternalStats :=
  mkInternalStats (db_stats_ example_stats) (cf_stats_value_ example_stats)
    (cf_stats_count_ example_stats) (comp_stats_ example_stats)
    (stall_leveln_slowdown_hard_ example_stats)
    (stall_leveln_slowdown_count_hard_ example_stats)
    (stall_leveln_slowdown_soft_ example_stats)
    (stall_leveln_slowdown_count_soft_ example_stats)
    (cf_stats_snapshot_ example_stats) (db_stats_snapshot_ example_stats)
    3 100
    {| GetName := "default";
       compaction_style := kCompactionStyleLevel;
       current :=
         mkVersion
           {| num_levels := 3;
              files_ :=
                [ [mkFileMetaData false; mkFileMetaData false];
                  [mkFileMetaData true; mkFileMetaData false];
                  [mkFileMetaData true] ];
              level_bytes_ := [2097152; 2097152; 1048576];
              compaction_score_ := [Z2D 2; Z2D 1];
              compaction_level_ := [1; 0] |} "" 4096 |}.

(** The sum of the [double]s [f level] over a list of levels, added one
    after the other to 0.0 in the order of the list, as the level loop
    adds them. *)
Definition Dsum (f : Z -> double) (levels : list Z) : double :=
  fold_left (fun acc level => (acc + f level)%Qc) levels (Z2D 0).

(** The sum of the [uint64_t]s [f level] over a list of levels, each
    addition reduced modulo 2^64. *)
Definition Usum (f : Z -> Z) (levels : list Z) : Z :=
  fold_left (fun acc level => wrap64 (acc + f level)) levels 0.

(** * Properties *)

(** ** Machine arithmetic *)

Lemma two64_pos : 0 < two64.
Proof. reflexivity. Qed.

Lemma wrap64_small (z : Z) : is_uint64 z -> wrap64 z = z.
Proof. intros H. apply Z.mod_small. exact H. Qed.

Lemma wrap64_range (z : Z) : is_uint64 (wrap64 z).
Proof. apply Z.mod_pos_bound. exact two64_pos. Qed.

Lemma wrap64_diag (z : Z) : wrap64 (z - z) = 0.
Proof. rewrite Z.sub_diag. reflexivity. Qed.

Lemma wrap64_sub (cur snap : Z) :
  is_uint64 cur -> is_uint64 snap -> wrap64 (cur - snap) = diff64 cur snap.
Proof.
  unfold is_uint64, wrap64, diff64. intros Hc Hs.
  destruct (Z.leb_spec snap cur) as [Hle | Hlt].
  - apply Z.mod_small. lia.
  - symmetry. apply (Z.mod_unique_pos _ _ (-1)); lia.
Qed.

Lemma diff64_le (cur snap : Z) : snap <= cur -> diff64 cur snap = cur - snap.
Proof. unfold diff64. intros H. apply Z.leb_le in H. rewrite H. reflexivity. Qed.

Lemma clamped_sub_diag (a : Z) : clamped_sub a a = 0.
Proof. unfold clamped_sub. rewrite Z.ltb_irrefl. lia. Qed.

Lemma clamped_sub_le (a b : Z) : b <= a -> clamped_sub a b = a - b.
Proof.
  unfold clamped_sub. intros H.
  destruct (Z.ltb_spec a b); [lia | reflexivity].
Qed.

(** ** The property catalog *)

Lemma GetPropertyType_documented :
  Forall (fun e => GetPropertyType (String.append "rocksdb." (fst e)) = snd e)
    documented_properties.
Proof. repeat constructor. Qed.

Lemma GetPropertyType_num_files_at_level (suffix : string) :
  GetPropertyType (String.append "rocksdb.num-files-at-level" suffix)
  = mkPropertyInfo kNumFilesAtLevel false false.
Proof.
  unfold GetPropertyType, starts_with. simpl.
  destruct suffix; reflexivity.
Qed.

Lemma GetPropertyType_no_prefix (property : string) :
  starts_with property "rocksdb." = false ->
  GetPropertyType property = mkPropertyInfo kUnknown false false.
Proof. intros H. unfold GetPropertyType. rewrite H. reflexivity. Qed.

Lemma GetPropertyType_need_out_of_mutex (property : string) :
  need_out_of_mutex (GetPropertyType property) = true <->
  property_type (GetPropertyType property) = kEstimatedUsageByTableReaders.
Proof. unfold GetPropertyType. case_ifs; simpl; split; congruence. Qed.

(** Where the prefix is present and no name matches, the flag
    [is_int_property] is left set. *)
Lemma GetPropertyType_unknown_with_prefix (property : string) :
  starts_with property "rocksdb." = true ->
  property_type (GetPropertyType property) = kUnknown ->
  GetPropertyType property = mkPropertyInfo kUnknown true false.
Proof.
  intros Hp. unfold GetPropertyType. rewrite Hp. simpl negb. cbv iota.
  case_ifs; simpl; congruence.
Qed.

(** C1, at an unrecognized suffix: for the query [rocksdb.foo], which has
    the namespace prefix and names no property, [GetPropertyType] returns
    the kind unknown with [need_out_of_mutex] false but with
    [is_int_property] true, where the catalog documents false. *)
Theorem GetPropertyType_unrecognized_suffix :
  GetPropertyType "rocksdb.foo" = mkPropertyInfo kUnknown true false.
Proof. reflexivity. Qed.

(** ** The isolated integer path *)

(** C5: for the estimated table-reader memory kind and no version
    snapshot, [GetIntPropertyOutOfMutex] succeeds and the value is zero,
    whatever the output held before. *)
Theorem GetIntPropertyOutOfMutex_null_version (value : Z) :
  GetIntPropertyOutOfMutex kEstimatedUsageByTableReaders None value = (true, 0).
Proof. reflexivity. Qed.

(** C10: for every kind other than the estimated table-reader memory kind,
    [GetIntPropertyOutOfMutex] fails and leaves the output value as it was,
    with or without a version snapshot. *)
Theorem GetIntPropertyOutOfMutex_other_kind (property_type : DBPropertyType)
    (version : option Version) (value : Z) :
  property_type <> kEstimatedUsageByTableReaders ->
  GetIntPropertyOutOfMutex property_type version value = (false, value).
Proof.
  intros Hne. unfold GetIntPropertyOutOfMutex.
  destruct (DBPropertyType_eq_dec property_type kEstimatedUsageByTableReaders)
    as [Heq | _]; [contradiction | reflexivity].
Qed.

Lemma GetIntPropertyOutOfMutex_other_kind_witness :
  kNumSnapshots <> kEstimatedUsageByTableReaders /\
  GetIntPropertyOutOfMutex kNumSnapshots
    (Some (mkVersion (mkVersionStorageInfo 1 [[]] [0] [] []) "" 4096)) 7
  = (false, 7).
Proof.
  split; [discriminate |].
  apply GetIntPropertyOutOfMutex_other_kind. discriminate.
Defined.

(** With a version snapshot, the value is what the snapshot reports. *)
Lemma GetIntPropertyOutOfMutex_version (v : Version) (value : Z) :
  GetIntPropertyOutOfMutex kEstimatedUsageByTableReaders (Some v) value
  = (true, GetMemoryUsageByTableReaders v).
Proof. reflexivity. Qed.

(** ** Compaction statistics *)

Lemma Subtract_diag (a : CompactionStats) : Subtract a a = zero_stats.
Proof.
  unfold Subtract, zero_stats, CompactionStats_init.
  rewrite !clamped_sub_diag. reflexivity.
Qed.

Lemma wrap64_sub_add (a b : Z) :
  is_uint64 a -> b <= a -> wrap64 (clamped_sub a b + b) = a.
Proof.
  intros Ha Hle. rewrite clamped_sub_le by exact Hle.
  replace (a - b + b) with a by lia. apply wrap64_small. exact Ha.
Qed.

Lemma Add_Subtract (a b : CompactionStats) :
  CompactionStats_wf a -> CompactionStats_le b a -> Add (Subtract a b) b = a.
Proof.
  destruct a, b. unfold CompactionStats_wf, CompactionStats_le, Add, Subtract.
  simpl. intros (H1 & H2 & H3 & H4 & H5 & H6 & H7 & H8)
    (L1 & L2 & L3 & L4 & L5 & L6 & L7 & L8).
  rewrite !wrap64_sub_add by assumption.
  rewrite clamped_sub_le by assumption.
  f_equal. lia.
Qed.

(** C7: [Subtract(A, A)] has every field zero, and for [A >= B] field-wise
    (and [A] holding counter values) [Add(Subtract(A, B), B)] is [A]. *)
Theorem CompactionStats_Subtract_Add (a b : CompactionStats) :
  Subtract a a = CompactionStats_init 0 /\
  (CompactionStats_wf a -> CompactionStats_le b a ->
   Add (Subtract a b) b = a).
Proof.
  split.
  - apply Subtract_diag.
  - apply Add_Subtract.
Qed.

Lemma CompactionStats_Subtract_Add_witness :
  let a := mkCompactionStats 9 8 7 6 5 4 3 2 in
  let b := mkCompactionStats 1 2 3 4 5 0 1 2 in
  Subtract a a = CompactionStats_init 0 /\ Add (Subtract a b) b = a.
Proof.
  intros a b.
  destruct (CompactionStats_Subtract_Add a b) as [Hz Hadd].
  split; [exact Hz |].
  apply Hadd.
  - unfold CompactionStats_wf, is_uint64, two64. simpl. lia.
  - unfold CompactionStats_le. simpl. lia.
Defined.

(** ** The level loop of the per-column-family report *)

Section LevelLoop.

Variable s : InternalStats.
Variable compaction_score : list double.
Variable files_being_compacted : list Z.

Let step := DumpCFStats_level s compaction_score files_being_compacted.
Let row := level_row s compaction_score files_being_compacted.
Let stats_at := fun level => at_ zero_stats (comp_stats_ s) level.

Lemma DumpCFStats_level_rendered (t : CFTotals) (value : list Chunk) (level : Z) :
  level_is_rendered s level = true ->
  snd (step (t, value) level) = value ++ [row level] /\
  stats_sum (fst (step (t, value) level)) = Add (stats_sum t) (stats_at level).
Proof.
  intros H. unfold step, DumpCFStats_level. rewrite H. split; reflexivity.
Qed.

Lemma DumpCFStats_level_omitted (t : CFTotals) (value : list Chunk) (level : Z) :
  level_is_rendered s level = false ->
  snd (step (t, value) level) = value /\
  stats_sum (fst (step (t, value) level)) = stats_sum t.
Proof.
  intros H. unfold step, DumpCFStats_level. rewrite H. split; reflexivity.
Qed.

(** The totals do not depend on the text accumulated so far. *)
Lemma DumpCFStats_level_totals (t : CFTotals) (v1 v2 : list Chunk) (level : Z) :
  fst (step (t, v1) level) = fst (step (t, v2) level).
Proof.
  unfold step, DumpCFStats_level.
  destruct (level_is_rendered s level); reflexivity.
Qed.

Lemma level_loop_totals (levels : list Z) (t : CFTotals) (v1 v2 : list Chunk) :
  fst (fold_left step levels (t, v1)) = fst (fold_left step levels (t, v2)).
Proof.
  revert t v1 v2. induction levels as [| level levels IH]; intros t v1 v2.
  - reflexivity.
  - cbn [fold_left].
    pose proof (DumpCFStats_level_totals t v1 v2 level) as Hfst.
    destruct (step (t, v1) level) as [t1 w1].
    destruct (step (t, v2) level) as [t2 w2].
    simpl in Hfst. subst t2. apply IH.
Qed.

(** The rows printed by the loop are those of the levels that pass the
    test, in level order. *)
Lemma level_loop_rows (levels : list Z) (t : CFTotals) (value : list Chunk) :
  snd (fold_left step levels (t, value))
  = value ++ map row (List.filter (level_is_rendered s) levels).
Proof.
  revert t value. induction levels as [| level levels IH]; intros t value.
  - simpl. rewrite app_nil_r. reflexivity.
  - cbn [fold_left List.filter]. destruct (level_is_rendered s level) eqn:Hr.
    + destruct (DumpCFStats_level_rendered t value level Hr) as [Hsnd _].
      destruct (step (t, value) level) as [t1 w1]. simpl in Hsnd. subst w1.
      rewrite IH. cbn [map]. rewrite <- app_assoc. reflexivity.
    + destruct (DumpCFStats_level_omitted t value level Hr) as [Hsnd _].
      destruct (step (t, value) level) as [t1 w1]. simpl in Hsnd. subst w1.
      apply IH.
Qed.

(** The statistics summed by the loop are those of the same levels. *)
Lemma level_loop_stats_sum (levels : list Z) (t : CFTotals) (value : list Chunk) :
  stats_sum (fst (fold_left step levels (t, value)))
  = fold_left Add (map stats_at (List.filter (level_is_rendered s) levels))
      (stats_sum t).
Proof.
  revert t value. induction levels as [| level levels IH]; intros t value.
  - reflexivity.
  - cbn [fold_left List.filter]. destruct (level_is_rendered s level) eqn:Hr.
    + destruct (DumpCFStats_level_rendered t value level Hr) as [_ Hsum].
      destruct (step (t, value) level) as [t1 w1]. simpl in Hsum.
      rewrite IH. cbn [map fold_left fst]. rewrite Hsum. reflexivity.
    + destruct (DumpCFStats_level_omitted t value level Hr) as [_ Hsum].
      destruct (step (t, value) level) as [t1 w1]. simpl in Hsum.
      rewrite IH. rewrite Hsum. reflexivity.
Qed.

(** The stall count total is a [uint64_t] value. *)
Lemma level_loop_stall_count (levels : list Z) (t : CFTotals) (value : list Chunk) :
  is_uint64 (total_stall_count t) ->
  is_uint64 (total_stall_count (fst (fold_left step levels (t, value)))).
Proof.
  revert t value. induction levels as [| level levels IH]; intros t value Ht.
  - exact Ht.
  - cbn [fold_left].
    assert (is_uint64 (total_stall_count (fst (step (t, value) level)))) as H1.
    { unfold step, DumpCFStats_level.
      destruct (level_is_rendered s level); simpl;
        [apply wrap64_range | exact Ht]. }
    destruct (step (t, value) level) as [t1 w1]. apply IH. exact H1.
Qed.

End LevelLoop.

(** ** The shape of the per-column-family report *)

Lemma cf_totals_snapshot (s : InternalStats) (snap : CFStatsSnapshot.t) :
  cf_totals (set_cf_stats_snapshot s snap) = cf_totals s.
Proof. reflexivity. Qed.

Lemma DumpCFStats_levels_eq (s : InternalStats) (value : list Chunk) :
  DumpCFStats_levels s value
  = (cf_totals s,
     value ++ map (level_row s (level_compaction_scores s)
                     (level_files_being_compacted s)) (rendered_levels s)).
Proof.
  unfold cf_totals, rendered_levels, DumpCFStats_levels.
  rewrite (surjective_pairing (fold_left _ _ (CFTotals_init, value))).
  f_equal.
  - apply level_loop_totals.
  - apply level_loop_rows.
Qed.

Lemma cf_totals_stats_sum (s : InternalStats) :
  stats_sum (cf_totals s)
  = fold_left Add (map (at_ zero_stats (comp_stats_ s)) (rendered_levels s))
      (CompactionStats_init 0).
Proof.
  unfold cf_totals, DumpCFStats_levels. rewrite level_loop_stats_sum.
  reflexivity.
Qed.

Lemma cf_totals_stall_count (s : InternalStats) :
  is_uint64 (total_stall_count (cf_totals s)).
Proof.
  unfold cf_totals, DumpCFStats_levels. apply level_loop_stall_count.
  unfold is_uint64, two64. simpl. lia.
Qed.

(** The report: the header, a row per rendered level, the "Sum" and "Int"
    rows, the flush line and the two stall lines; and the snapshot it
    stores. *)
Lemma DumpCFStats_report (s : InternalStats) (value : list Chunk) :
  DumpCFStats s value
  = (set_cf_stats_snapshot s (cf_next_snapshot s),
     value ++
     PrintLevelStatsHeader (GetName (cfd_ s)) ::
     map (level_row s (level_compaction_scores s)
            (level_files_being_compacted s)) (rendered_levels s) ++
     [cf_sum_row s; cf_int_row s; cf_flush_line s] ++ cf_stall_lines s).
Proof.
  unfold DumpCFStats. rewrite DumpCFStats_levels_eq.
  f_equal.
  rewrite <- !app_assoc. reflexivity.
Qed.

Lemma In_seqZ (level n : Z) : In level (seqZ 0 n) <-> 0 <= level < n.
Proof.
  rewrite <- list_elem_of_In, elem_of_seqZ. lia.
Qed.

Lemma level_is_rendered_iff (s : InternalStats) (level : Z) :
  level_is_rendered s level = true <->
  0 < micros (at_ zero_stats (comp_stats_ s) level) \/
  0 < NumLevelFiles (storage_info (current (cfd_ s))) level.
Proof.
  unfold level_is_rendered. rewrite orb_true_iff, !Z.ltb_lt. reflexivity.
Qed.

Lemma In_rendered_levels (s : InternalStats) (level : Z) :
  In level (rendered_levels s) <->
  0 <= level < number_levels_ s /\
  (0 < micros (at_ zero_stats (comp_stats_ s) level) \/
   0 < NumLevelFiles (storage_info (current (cfd_ s))) level).
Proof.
  unfold rendered_levels.
  rewrite filter_In, In_seqZ, level_is_rendered_iff. reflexivity.
Qed.

Lemma row_names_app (v1 v2 : list Chunk) :
  row_names (v1 ++ v2) = row_names v1 ++ row_names v2.
Proof. unfold row_names. rewrite map_app, concat_app. reflexivity. Qed.

Lemma row_names_level_rows (s : InternalStats) (compaction_score : list double)
    (files_being_compacted : list Z) (levels : list Z) :
  row_names (map (level_row s compaction_score files_being_compacted) levels)
  = map (fun level => String.append "L" (ToString level)) levels.
Proof.
  induction levels as [| level levels IH]; [reflexivity |].
  cbn [map]. rewrite <- IH. reflexivity.
Qed.

(** The example of a column family with three levels: the row of level 1
    shows 5 files, 1 of them being compacted, a write amplification of
    120/100 and a compaction time of 2 seconds. *)
Example example_level1_row :
  exists r,
    nth_error (snd (DumpCFStats example_stats [])) 2 = Some (LevelStatsRow r) /\
    row_name r = "L1" /\ row_files r = 5 /\ row_being_compacted r = 1 /\
    row_w_amp r = Q2Qc (6 # 5) /\ row_comp_sec r = Z2D 2.
Proof.
  eexists. split; [vm_compute; reflexivity |].
  repeat split; apply Qc_is_canon; reflexivity.
Qed.

(** ** The DB-wide report *)

Lemma DumpDBStats_append (now : Z) (s : InternalStats) (value : list Chunk) :
  snd (DumpDBStats now s value) = value ++ snd (DumpDBStats now s []).
Proof.
  unfold DumpDBStats. cbn [snd]. rewrite <- !app_assoc. reflexivity.
Qed.

Lemma DumpCFStats_append (s : InternalStats) (value : list Chunk) :
  snd (DumpCFStats s value) = value ++ snd (DumpCFStats s []).
Proof. rewrite !DumpCFStats_report. reflexivity. Qed.

(** The DB-wide report reads nothing that the per-column-family report
    writes. *)
Lemma DumpDBStats_after_DumpCFStats (now : Z) (s : InternalStats)
    (v1 v2 : list Chunk) :
  snd (DumpDBStats now (fst (DumpCFStats s v1)) v2) = snd (DumpDBStats now s v2).
Proof. rewrite DumpCFStats_report. reflexivity. Qed.

(** ** The string-report path *)

(** C9: the report of the kind [kStats] is the report of [kCFStats]
    followed by that of [kDBStats]: the call is the two calls in sequence,
    what it appends to the output is what the two kinds append, and it
    succeeds when both do. *)
Theorem GetStringProperty_kStats (now : Z) (property : string)
    (s : InternalStats) (value : list Chunk) :
  GetStringProperty now kStats property s value
  = (let '(ok1, s1, v1) :=
       GetStringProperty now kCFStats "rocksdb.cfstats" s value in
     if ok1 then GetStringProperty now kDBStats "rocksdb.dbstats" s1 v1
     else (false, s1, v1)) /\
  (let '(ok, _, v) := GetStringProperty now kStats property s value in
   let '(ok1, _, v1) := GetStringProperty now kCFStats "rocksdb.cfstats" s [] in
   let '(ok2, _, v2) := GetStringProperty now kDBStats "rocksdb.dbstats" s [] in
   ok = ok1 && ok2 /\ v = value ++ v1 ++ v2).
Proof.
  unfold GetStringProperty, GetStringProperty_case.
  rewrite !DumpCFStats_report.
  split.
  - cbn [negb].
    rewrite (surjective_pairing (DumpDBStats now _ _)). reflexivity.
  - cbn [negb].
    rewrite (surjective_pairing (DumpDBStats now _ _)).
    rewrite (surjective_pairing (DumpDBStats now s [])).
    cbn [negb]. split; [reflexivity |].
    rewrite DumpDBStats_append. cbn [app].
    rewrite <- app_assoc. reflexivity.
Qed.

(** ** Write amplification *)

Lemma level_row_in_report (s : InternalStats) (value : list Chunk) (level : Z) :
  In level (rendered_levels s) ->
  In (level_row s (level_compaction_scores s) (level_files_being_compacted s)
        level)
     (snd (DumpCFStats s value)).
Proof.
  intros H. rewrite DumpCFStats_report. cbn [snd].
  apply in_or_app. right. right. apply in_or_app. left.
  apply in_map. exact H.
Qed.

Lemma sum_row_in_report (s : InternalStats) (value : list Chunk) :
  In (cf_sum_row s) (snd (DumpCFStats s value)).
Proof.
  rewrite DumpCFStats_report. cbn [snd].
  apply in_or_app. right. right. apply in_or_app. right. left. reflexivity.
Qed.

(** C2, as the code has it: in the row of a rendered level the write
    amplification is 0 when [bytes_readn] is 0 and
    [bytes_written / bytes_readn] otherwise; in the "Sum" row it is the
    bytes written over all rendered levels divided by [ingest_bytes + 1],
    where [ingest_bytes] is the number of bytes flushed. *)
Theorem DumpCFStats_w_amp (s : InternalStats) (value : list Chunk) :
  let out := snd (DumpCFStats s value) in
  let ingest_bytes := cf_stats_value_ s BYTES_FLUSHED in
  let sum :=
    fold_left Add (map (at_ zero_stats (comp_stats_ s)) (rendered_levels s))
      (CompactionStats_init 0) in
  (forall level,
     In level (rendered_levels s) ->
     let stats := at_ zero_stats (comp_stats_ s) level in
     exists r,
       In (LevelStatsRow r) out /\
       row_name r = String.append "L" (ToString level) /\
       row_w_amp r =
         if bytes_readn stats =? 0 then Z2D 0
         else (Z2D (bytes_written stats) / Z2D (bytes_readn stats))%Qc) /\
  (0 <= ingest_bytes < two64 - 1 ->
   exists r,
     In (LevelStatsRow r) out /\ row_name r = "Sum" /\
     row_w_amp r = (Z2D (bytes_written sum) / Z2D (ingest_bytes + 1))%Qc).
Proof.
  intros out ingest_bytes sum. split.
  - intros level Hin stats.
    eexists. split; [exact (level_row_in_report s value level Hin) |].
    split; reflexivity.
  - intros Hrange.
    eexists. split; [exact (sum_row_in_report s value) |].
    split; [reflexivity |].
    cbn [row_w_amp]. subst sum. rewrite <- cf_totals_stats_sum.
    rewrite wrap64_small by (unfold is_uint64; subst ingest_bytes; lia).
    reflexivity.
Qed.

Lemma DumpCFStats_w_amp_witness :
  (exists r,
     In (LevelStatsRow r) (snd (DumpCFStats example_stats [])) /\
     row_name r = "L1" /\
     row_w_amp r = (Z2D 125829120 / Z2D 104857600)%Qc) /\
  (exists r,
     In (LevelStatsRow r) (snd (DumpCFStats example_stats [])) /\
     row_name r = "Sum" /\
     row_w_amp r = (Z2D 125829120 / Z2D 52428801)%Qc).
Proof.
  destruct (DumpCFStats_w_amp example_stats []) as [Hlevel Hsum].
  split.
  - apply (Hlevel 1). right. left. reflexivity.
  - apply Hsum. unfold two64. simpl. lia.
Defined.

(** C2, as stated, fails: the row of a level 0 that holds flushed data
    only shows a write amplification of 0, not [bytes_written / 1]; and
    the "Sum" row divides by [ingest_bytes + 1], not by
    [max(ingest_bytes, 1)]. *)
Lemma w_amp_counterexample :
  let s := flushed_stats in
  let stats := at_ zero_stats (comp_stats_ s) 0 in
  exists r0 rsum,
    nth_error (snd (DumpCFStats s [])) 1 = Some (LevelStatsRow r0) /\
    row_name r0 = "L0" /\
    row_w_amp r0 <> spec_w_amp (bytes_written stats) (bytes_readn stats) /\
    nth_error (snd (DumpCFStats s [])) 2 = Some (LevelStatsRow rsum) /\
    row_name rsum = "Sum" /\
    row_w_amp rsum <>
      spec_w_amp (bytes_written (stats_sum (cf_totals s)))
        (cf_stats_value_ s BYTES_FLUSHED).
Proof.
  intros s stats. do 2 eexists.
  split; [vm_compute; reflexivity |].
  split; [reflexivity |].
  split; [intros H; apply (f_equal this) in H; vm_compute in H; discriminate |].
  split; [vm_compute; reflexivity |].
  split; [reflexivity |].
  intros H; apply (f_equal this) in H; vm_compute in H; discriminate.
Qed.

(** ** Interval figures *)

Lemma db_interval_chunks_ext (d1 d2 : InternalDBStatsType -> Z) :
  (forall k, d1 k = d2 k) -> db_interval_chunks d1 = db_interval_chunks d2.
Proof. intros H. unfold db_interval_chunks. rewrite !H. reflexivity. Qed.

(** The interval lines of the DB-wide report carry, for each counter, the
    unsigned difference of the counter and its snapshot. *)
Lemma DumpDBStats_interval (now : Z) (s : InternalStats) :
  List.filter is_interval_chunk (snd (DumpDBStats now s []))
  = db_interval_chunks
      (fun k => wrap64 (db_stats_ s k - db_snapshot_value (db_stats_snapshot_ s) k)).
Proof. reflexivity. Qed.

(** The snapshot stored by the DB-wide report holds the counters. *)
Lemma DumpDBStats_snapshot (now : Z) (s : InternalStats) (value : list Chunk)
    (k : InternalDBStatsType) :
  let s' := fst (DumpDBStats now s value) in
  db_snapshot_value (db_stats_snapshot_ s') k = db_stats_ s k /\
  db_stats_ s' k = db_stats_ s k.
Proof. destruct k; split; reflexivity. Qed.

Lemma filter_level_rows (s : InternalStats) (compaction_score : list double)
    (files_being_compacted : list Z) (levels : list Z) :
  List.filter is_interval_chunk
    (map (level_row s compaction_score files_being_compacted) levels) = [].
Proof.
  induction levels as [| level levels IH]; [reflexivity | exact IH].
Qed.

(** The interval chunks of the per-column-family report. *)
Lemma DumpCFStats_interval (s : InternalStats) :
  let snap := cf_stats_snapshot_ s in
  List.filter is_interval_chunk (snd (DumpCFStats s []))
  = cf_interval_chunks (cf_stats_value_ s BYTES_FLUSHED)
      (Subtract (stats_sum (cf_totals s)) (CFStatsSnapshot.comp_stats snap))
      (wrap64 (cf_stats_value_ s BYTES_FLUSHED -
               CFStatsSnapshot.ingest_bytes snap))
      (total_stall_us (cf_totals s) - CFStatsSnapshot.stall_us snap)%Qc
      (wrap64 (total_stall_count (cf_totals s) -
               CFStatsSnapshot.stall_count snap)).
Proof.
  intros snap. rewrite DumpCFStats_report. cbn [snd app].
  cbn [List.filter is_interval_chunk PrintLevelStatsHeader].
  rewrite List.filter_app, filter_level_rows. reflexivity.
Qed.

Lemma Subtract_le (a b : CompactionStats) :
  CompactionStats_le b a -> Subtract a b = CompactionStats_minus a b.
Proof.
  unfold CompactionStats_le, Subtract, CompactionStats_minus.
  intros (L1 & L2 & L3 & L4 & L5 & L6 & L7 & L8).
  rewrite !clamped_sub_le by assumption. reflexivity.
Qed.

(** C3, as the code has it: an interval field is the counter minus its
    snapshot in unsigned 64-bit arithmetic, that is the true difference
    when the snapshot does not exceed the counter and the difference plus
    2^64 when it does; this holds for every counter of the DB-wide report
    and for the flushed bytes (to which 1 is added) and the stall count of
    the per-column-family report.  The stall time is a plain difference of
    [double]s.  Only the compaction statistics of the "Int" row, diffed by
    [Subtract], are clamped at zero. *)
Theorem interval_fields_unsigned_difference (now : Z) (s : InternalStats) :
  db_counters_wf s -> cf_counters_wf s ->
  let dsnap := db_stats_snapshot_ s in
  let csnap := cf_stats_snapshot_ s in
  List.filter is_interval_chunk (snd (DumpDBStats now s []))
  = db_interval_chunks
      (fun k => diff64 (db_stats_ s k) (db_snapshot_value dsnap k)) /\
  List.filter is_interval_chunk (snd (DumpCFStats s []))
  = cf_interval_chunks (cf_stats_value_ s BYTES_FLUSHED)
      (Subtract (stats_sum (cf_totals s)) (CFStatsSnapshot.comp_stats csnap))
      (diff64 (cf_stats_value_ s BYTES_FLUSHED)
         (CFStatsSnapshot.ingest_bytes csnap))
      (total_stall_us (cf_totals s) - CFStatsSnapshot.stall_us csnap)%Qc
      (diff64 (total_stall_count (cf_totals s))
         (CFStatsSnapshot.stall_count csnap)) /\
  (forall cur snap, snap <= cur -> diff64 cur snap = cur - snap) /\
  (forall cur snap, cur < snap -> diff64 cur snap = cur - snap + two64) /\
  (forall cur snap, cur < snap -> clamped_sub cur snap = 0).
Proof.
  intros Hdb (Hflushed & Hingest & Hcount) dsnap csnap.
  split; [| split; [| split; [| split]]].
  - rewrite DumpDBStats_interval. apply db_interval_chunks_ext.
    intros k. destruct (Hdb k) as [Hcur Hsnap]. apply wrap64_sub; assumption.
  - rewrite DumpCFStats_interval. cbv zeta.
    rewrite !wrap64_sub; auto using cf_totals_stall_count.
  - apply diff64_le.
  - intros cur snap Hlt. unfold diff64.
    destruct (Z.leb_spec snap cur); [lia | reflexivity].
  - intros cur snap Hlt. unfold clamped_sub.
    destruct (Z.ltb_spec cur snap); [reflexivity | lia].
Qed.

Lemma interval_fields_unsigned_difference_witness :
  List.filter is_interval_chunk (snd (DumpDBStats 500 rewound_stats []))
  = db_interval_chunks
      (fun k => diff64 (db_stats_ rewound_stats k)
                  (db_snapshot_value (db_stats_snapshot_ rewound_stats) k)) /\
  diff64 3 5 = 3 - 5 + two64.
Proof.
  assert (db_counters_wf rewound_stats) as Hdb.
  { intros k. unfold is_uint64, two64. destruct k; simpl; lia. }
  assert (cf_counters_wf rewound_stats) as Hcf.
  { unfold cf_counters_wf, is_uint64, two64. simpl. lia. }
  destruct (interval_fields_unsigned_difference 500 rewound_stats Hdb Hcf)
    as (Hd & _ & _ & Hwrap & _).
  split; [exact Hd | apply Hwrap; lia].
Defined.

(** C3, as stated, fails: with 3 self-done writes counted and 5 in the
    snapshot, the DB-wide report prints 2^64 - 2 interval batches, where
    the difference clamped at zero is 0. *)
Lemma interval_clamp_counterexample :
  let s := rewound_stats in
  exists w k b wpb mb sm,
    In (IntervalWrites w k b wpb mb sm) (snd (DumpDBStats 500 s [])) /\
    b = two64 - 2 /\
    b <> clamped_sub (db_stats_ s WRITE_DONE_BY_SELF)
           (DBStatsSnapshot.write_self (db_stats_snapshot_ s)).
Proof.
  intros s. do 6 eexists. split; [| split].
  - right. right. right. left. reflexivity.
  - reflexivity.
  - vm_compute. discriminate.
Qed.

(** The figures of a report are those of its interval chunks. *)
Lemma report_interval_figures_filter (value : list Chunk) :
  report_interval_figures value
  = report_interval_figures (List.filter is_interval_chunk value).
Proof.
  unfold report_interval_figures.
  induction value as [| c value IH]; [reflexivity |].
  cbn [map concat List.filter].
  destruct (is_interval_chunk c) eqn:Hc.
  - cbn [map concat]. rewrite IH. reflexivity.
  - rewrite IH.
    destruct c; try discriminate Hc; try reflexivity.
    simpl in Hc. simpl. rewrite Hc. reflexivity.
Qed.

Lemma Qcminus_diag (x : Qc) : (x - x)%Qc = Z2D 0.
Proof. unfold Qcminus. apply Qcplus_opp_r. Qed.

(** The DB-wide report that follows a DB-wide report. *)
Lemma DumpDBStats_twice (now1 now2 : Z) (s : InternalStats) (v1 : list Chunk) :
  List.filter is_interval_chunk
    (snd (DumpDBStats now2 (fst (DumpDBStats now1 s v1)) []))
  = db_interval_chunks (fun _ => 0).
Proof.
  rewrite DumpDBStats_interval. apply db_interval_chunks_ext.
  intros k. destruct (DumpDBStats_snapshot now1 s v1 k) as [Hsnap Hcur].
  rewrite Hsnap, Hcur. apply wrap64_diag.
Qed.

(** The per-column-family report that follows one. *)
Lemma DumpCFStats_twice (s : InternalStats) (v1 : list Chunk) :
  List.filter is_interval_chunk (snd (DumpCFStats (fst (DumpCFStats s v1)) []))
  = cf_interval_chunks (cf_stats_value_ s BYTES_FLUSHED) zero_stats 0 (Z2D 0) 0.
Proof.
  rewrite (DumpCFStats_report s v1). cbn [fst].
  rewrite DumpCFStats_interval. cbv zeta.
  rewrite cf_totals_snapshot.
  change (cf_stats_snapshot_ (set_cf_stats_snapshot s (cf_next_snapshot s)))
    with (cf_next_snapshot s).
  change (cf_stats_value_ (set_cf_stats_snapshot s (cf_next_snapshot s)))
    with (cf_stats_value_ s).
  unfold cf_next_snapshot.
  cbn [CFStatsSnapshot.comp_stats CFStatsSnapshot.ingest_bytes
       CFStatsSnapshot.stall_us CFStatsSnapshot.stall_count].
  rewrite Subtract_diag, !wrap64_diag, Qcminus_diag. reflexivity.
Qed.

Lemma db_zero_interval_figures :
  Forall (fun q => q = Z2D 0)
    (report_interval_figures (db_interval_chunks (fun _ => 0))).
Proof. repeat constructor; apply Qc_is_canon; reflexivity. Qed.

Lemma cf_zero_interval_figures (flushed : Z) :
  report_interval_figures (cf_interval_chunks flushed zero_stats 0 (Z2D 0) 0)
  = replicate 17 (Z2D 0) ++ [(Z2D 1 / kGB)%Qc].
Proof.
  unfold report_interval_figures, cf_interval_chunks.
  cbn [map concat interval_figures PrintLevelStats app replicate].
  repeat (apply (f_equal2 cons); [apply Qc_is_canon; reflexivity |]).
  reflexivity.
Qed.

(** C4, as the code has it.  First report: when no snapshot value exceeds
    its counter (as after a previous report, or with the zero snapshot of
    engine start), the interval lines carry the true deltas, counter minus
    snapshot, except that the interval of the flushed bytes is the delta
    plus 1.  A report that follows a report of the same kind with no
    counter changed in between: every interval figure is zero, except the
    interval of the flushed bytes in the per-column-family report, which
    is 1 byte, that is 1/2^30 GB, and is shown as 0.000. *)
Theorem consecutive_reports (now1 now2 : Z) (s : InternalStats)
    (v1 : list Chunk) :
  let dsnap := db_stats_snapshot_ s in
  let csnap := cf_stats_snapshot_ s in
  let t := cf_totals s in
  (db_counters_wf s -> db_snapshot_behind s ->
   List.filter is_interval_chunk (snd (DumpDBStats now1 s []))
   = db_interval_chunks (fun k => db_stats_ s k - db_snapshot_value dsnap k)) /\
  (cf_counters_wf s -> cf_snapshot_behind s ->
   List.filter is_interval_chunk (snd (DumpCFStats s []))
   = cf_interval_chunks (cf_stats_value_ s BYTES_FLUSHED)
       (CompactionStats_minus (stats_sum t) (CFStatsSnapshot.comp_stats csnap))
       (cf_stats_value_ s BYTES_FLUSHED - CFStatsSnapshot.ingest_bytes csnap)
       (total_stall_us t - CFStatsSnapshot.stall_us csnap)%Qc
       (total_stall_count t - CFStatsSnapshot.stall_count csnap)) /\
  (let s1 := fst (DumpDBStats now1 s v1) in
   List.filter is_interval_chunk (snd (DumpDBStats now2 s1 []))
   = db_interval_chunks (fun _ => 0) /\
   Forall (fun q => q = Z2D 0)
     (report_interval_figures (snd (DumpDBStats now2 s1 [])))) /\
  (let s1 := fst (DumpCFStats s v1) in
   List.filter is_interval_chunk (snd (DumpCFStats s1 []))
   = cf_interval_chunks (cf_stats_value_ s BYTES_FLUSHED) zero_stats 0 (Z2D 0) 0 /\
   report_interval_figures (snd (DumpCFStats s1 []))
   = replicate 17 (Z2D 0) ++ [(Z2D 1 / kGB)%Qc] /\
   thousandths (Z2D 1 / kGB)%Qc = 0).
Proof.
  intros dsnap csnap t. split; [| split; [| split]].
  - intros Hwf Hle. rewrite DumpDBStats_interval.
    apply db_interval_chunks_ext. intros k.
    destruct (Hwf k) as [Hcur Hsnap]. specialize (Hle k).
    rewrite wrap64_sub by assumption. apply diff64_le. exact Hle.
  - intros (Hflushed & Hingest & Hcount) (Hstats & Hile & Hcle).
    rewrite DumpCFStats_interval. cbv zeta.
    rewrite !wrap64_sub; auto using cf_totals_stall_count.
    rewrite !diff64_le by assumption.
    rewrite Subtract_le by exact Hstats. reflexivity.
  - intros s1. split.
    + apply DumpDBStats_twice.
    + rewrite report_interval_figures_filter. unfold s1.
      rewrite DumpDBStats_twice. apply db_zero_interval_figures.
  - intros s1. split; [| split].
    + apply DumpCFStats_twice.
    + rewrite report_interval_figures_filter. unfold s1.
      rewrite DumpCFStats_twice. apply cf_zero_interval_figures.
    + reflexivity.
Qed.

Lemma consecutive_reports_witness :
  let s := example_stats in
  List.filter is_interval_chunk (snd (DumpDBStats 500 s []))
  = db_interval_chunks
      (fun k => db_stats_ s k - db_snapshot_value (db_stats_snapshot_ s) k) /\
  List.filter is_interval_chunk (snd (DumpCFStats s []))
  = cf_interval_chunks 52428800
      (CompactionStats_minus (stats_sum (cf_totals s)) zero_stats)
      (52428800 - 0) (total_stall_us (cf_totals s) - Z2D 0)%Qc
      (total_stall_count (cf_totals s) - 0).
Proof.
  intros s.
  destruct (consecutive_reports 500 600 s []) as (Hdb & Hcf & _ & _).
  split.
  - apply Hdb.
    + intros k. unfold is_uint64, two64. destruct k; simpl; lia.
    + intros k. destruct k; simpl; lia.
  - apply Hcf.
    + unfold cf_counters_wf, is_uint64, two64. simpl. lia.
    + unfold cf_snapshot_behind, CompactionStats_le. vm_compute.
      repeat split; discriminate.
Defined.

(** C4, as stated, fails.  First report: with 536870 bytes flushed since
    the zero snapshot of engine start, the true delta is shown as 0.000 GB,
    and the report shows the interval of the flushed bytes as 0.001 GB,
    the delta plus 1.  Second report: in the per-column-family report
    that follows a per-column-family report, one interval figure is not
    zero. *)
Lemma consecutive_reports_counterexample :
  (let s := boundary_stats in
   let delta :=
     cf_stats_value_ s BYTES_FLUSHED -
     CFStatsSnapshot.ingest_bytes (cf_stats_snapshot_ s) in
   exists accumulative interval,
     In (FlushLine accumulative interval) (snd (DumpCFStats s [])) /\
     thousandths interval = 1 /\
     thousandths (Z2D delta / kGB)%Qc = 0) /\
  ~ Forall (fun q => q = Z2D 0)
      (report_interval_figures
         (snd (DumpCFStats (fst (DumpCFStats example_stats [])) []))).
Proof.
  split.
  - do 2 eexists. split; [| split].
    + rewrite DumpCFStats_report. cbn [snd].
      apply in_or_app. right. right. apply in_or_app. right.
      right. right. left. reflexivity.
    + reflexivity.
    + reflexivity.
  - rewrite report_interval_figures_filter, DumpCFStats_twice,
      cf_zero_interval_figures.
    intros H. apply Forall_app in H. destruct H as [_ H].
    apply Forall_inv in H.
    apply (f_equal this) in H. vm_compute in H. discriminate.
Qed.

(** ** Files at a level *)

(** What the string query does with a files-at-level property, in terms
    of the parse of its suffix. *)
Lemma GetStringProperty_num_files_parsed (now : Z) (suffix : string)
    (s : InternalStats) (value : list Chunk) (level : Z) :
  ConsumeDecimalNumber suffix = Some (level, "") ->
  GetStringProperty now kNumFilesAtLevel
    (String.append "rocksdb.num-files-at-level" suffix) s value
  = if number_levels_ s <=? to_int level then (false, s, value)
    else (true, s,
          [Text (ToString (NumLevelFiles (storage_info (current (cfd_ s)))
                             (to_int level)))]).
Proof.
  intros Hparse. unfold GetStringProperty, GetStringProperty_case.
  change (remove_prefix _ (String.append "rocksdb.num-files-at-level" suffix))
    with suffix.
  rewrite Hparse. reflexivity.
Qed.

Lemma GetStringProperty_num_files_unparsed (now : Z) (suffix : string)
    (s : InternalStats) (value : list Chunk) :
  ConsumeDecimalNumber suffix = None ->
  GetStringProperty now kNumFilesAtLevel
    (String.append "rocksdb.num-files-at-level" suffix) s value
  = (false, s, value).
Proof.
  intros Hparse. unfold GetStringProperty, GetStringProperty_case.
  change (remove_prefix _ (String.append "rocksdb.num-files-at-level" suffix))
    with suffix.
  rewrite Hparse. reflexivity.
Qed.

Lemma GetStringProperty_num_files_trailing (now : Z) (suffix : string)
    (s : InternalStats) (value : list Chunk) (level : Z) (c : ascii)
    (rest : string) :
  ConsumeDecimalNumber suffix = Some (level, String c rest) ->
  GetStringProperty now kNumFilesAtLevel
    (String.append "rocksdb.num-files-at-level" suffix) s value
  = (false, s, value).
Proof.
  intros Hparse. unfold GetStringProperty, GetStringProperty_case.
  change (remove_prefix _ (String.append "rocksdb.num-files-at-level" suffix))
    with suffix.
  rewrite Hparse. reflexivity.
Qed.

(** The cast to [int] keeps a level below 2^31 and folds larger ones. *)
Lemma to_int_small (level : Z) : 0 <= level < 2 ^ 31 -> to_int level = level.
Proof.
  intros H. unfold to_int, two32.
  rewrite Z.mod_small by lia.
  destruct (Z.ltb_spec level (2 ^ 31)); [reflexivity | lia].
Qed.

(** *** Parsing the decimal rendering of a level *)

Lemma digits_value_ge (d : Decimal.uint) (v : Z) :
  0 <= v -> v <= digits_value d v.
Proof.
  revert v. induction d; intros v Hv; simpl;
    [lia | match goal with
           | |- _ <= digits_value _ ?w =>
               specialize (IHd w ltac:(lia)); lia
           end ..].
Qed.

Lemma digits_value_of_uint_acc (d : Decimal.uint) (p : positive) :
  digits_value d (Z.pos p) = Z.pos (Pos.of_uint_acc d p).
Proof.
  revert p. induction d; intros p; simpl; [reflexivity | ..];
    rewrite <- IHd; f_equal; lia.
Qed.

Lemma digits_value_of_uint (d : Decimal.uint) :
  digits_value d 0 = Z.of_N (Pos.of_uint d).
Proof.
  induction d; simpl; [reflexivity | exact IHd | ..];
    apply digits_value_of_uint_acc.
Qed.

Lemma no_overflow (v delta : Z) :
  0 <= delta <= 9 -> v * 10 + delta <= kMaxUint64 ->
  (kMaxUint64 / 10 <? v) ||
  ((v =? kMaxUint64 / 10) && (kMaxUint64 mod 10 <? delta)) = false.
Proof.
  change (kMaxUint64 / 10) with 1844674407370955161.
  change (kMaxUint64 mod 10) with 5.
  change kMaxUint64 with 18446744073709551615.
  intros Hd Hv.
  destruct (Z.ltb_spec 1844674407370955161 v); [lia |].
  destruct (Z.eqb_spec v 1844674407370955161); [| reflexivity].
  destruct (Z.ltb_spec 5 delta); [lia | reflexivity].
Qed.

(** One digit [c] of value [k] read by the parser. *)
Ltac read_digit IH Hmax c k :=
  match type of Hmax with
  | digits_value (_ ?d) ?v <= _ =>
      pose proof (digits_value_ge d (v * 10 + k) ltac:(lia));
      simpl in Hmax |- *;
      change (is_digit c) with true; cbv iota;
      change (Z.of_N (N_of_ascii c) - 48) with k;
      rewrite no_overflow by lia;
      apply IH; [lia | exact Hmax | right; lia]
  end.

(** The parser reads back a numeral that fits 64 bits, whole. *)
Lemma ConsumeDecimalNumber_from_digits (d : Decimal.uint) (v : Z) (n : nat) :
  0 <= v -> digits_value d v <= kMaxUint64 ->
  d <> Decimal.Nil \/ (0 < n)%nat ->
  ConsumeDecimalNumber_from v n (NilEmpty.string_of_uint d)
  = Some (digits_value d v, "").
Proof.
  revert v n. induction d; intros v n Hv Hmax Hn.
  - destruct Hn as [Hn | Hn]; [congruence |].
    simpl. destruct n; [lia | reflexivity].
  - read_digit IHd Hmax "0"%char 0.
  - read_digit IHd Hmax "1"%char 1.
  - read_digit IHd Hmax "2"%char 2.
  - read_digit IHd Hmax "3"%char 3.
  - read_digit IHd Hmax "4"%char 4.
  - read_digit IHd Hmax "5"%char 5.
  - read_digit IHd Hmax "6"%char 6.
  - read_digit IHd Hmax "7"%char 7.
  - read_digit IHd Hmax "8"%char 8.
  - read_digit IHd Hmax "9"%char 9.
Qed.

Lemma ConsumeDecimalNumber_ToString (z : Z) :
  0 <= z <= kMaxUint64 -> ConsumeDecimalNumber (ToString z) = Some (z, "").
Proof.
  intros Hz. destruct z as [| p | p]; [reflexivity | | lia].
  unfold ToString, ConsumeDecimalNumber. cbn [Z.to_int NilZero.string_of_int].
  assert (NilZero.string_of_uint (Pos.to_uint p)
          = NilEmpty.string_of_uint (Pos.to_uint p)) as ->.
  { pose proof (DecimalPos.Unsigned.to_uint_nonnil p) as Hnil.
    destruct (Pos.to_uint p); [congruence | reflexivity ..]. }
  assert (digits_value (Pos.to_uint p) 0 = Z.pos p) as Hval.
  { rewrite digits_value_of_uint, DecimalPos.Unsigned.of_to. reflexivity. }
  rewrite ConsumeDecimalNumber_from_digits.
  - rewrite Hval. reflexivity.
  - lia.
  - rewrite Hval. lia.
  - left. apply DecimalPos.Unsigned.to_uint_nonnil.
Qed.

(** A level index below the level count: the query succeeds with the file
    count of the level, in decimal. *)
Lemma GetStringProperty_num_files_in_range (now : Z) (s : InternalStats)
    (value : list Chunk) (level : Z) :
  0 <= level < number_levels_ s -> level < 2 ^ 31 ->
  GetStringProperty now kNumFilesAtLevel
    (String.append "rocksdb.num-files-at-level" (ToString level)) s value
  = (true, s,
     [Text (ToString (NumLevelFiles (storage_info (current (cfd_ s))) level))]).
Proof.
  intros Hlevel Hint.
  rewrite (GetStringProperty_num_files_parsed now _ s value level).
  - rewrite to_int_small by lia.
    destruct (Z.leb_spec (number_levels_ s) level); [lia | reflexivity].
  - apply ConsumeDecimalNumber_ToString. unfold kMaxUint64, two64. lia.
Qed.

(** A level index at or above the level count, and below 2^31: the query
    fails. *)
Lemma GetStringProperty_num_files_out_of_range (now : Z) (s : InternalStats)
    (value : list Chunk) (level : Z) :
  0 <= level -> number_levels_ s <= level < 2 ^ 31 ->
  GetStringProperty now kNumFilesAtLevel
    (String.append "rocksdb.num-files-at-level" (ToString level)) s value
  = (false, s, value).
Proof.
  intros Hpos Hlevel.
  rewrite (GetStringProperty_num_files_parsed now _ s value level).
  - rewrite to_int_small by lia.
    destruct (Z.leb_spec (number_levels_ s) level); [reflexivity | lia].
  - apply ConsumeDecimalNumber_ToString. unfold kMaxUint64, two64. lia.
Qed.

Example num_files_at_level_1 :
  GetProperty 500 "rocksdb.num-files-at-level1" example_stats
  = (true, example_stats, [Text "5"]).
Proof. reflexivity. Qed.

Example num_files_at_level_3 :
  GetProperty 500 "rocksdb.num-files-at-level3" example_stats
  = (false, example_stats, []).
Proof. reflexivity. Qed.

Example num_files_at_level_trailing :
  GetProperty 500 "rocksdb.num-files-at-level1x" example_stats
  = (false, example_stats, []).
Proof. reflexivity. Qed.

Example num_files_at_level_no_number :
  GetProperty 500 "rocksdb.num-files-at-level" example_stats
  = (false, example_stats, []).
Proof. reflexivity. Qed.

(** C6, at a level index of 2^32: the column family has 3 levels, the
    property names level 4294967296, and the string query succeeds with
    the file count of level 0, where a level index at or above the level
    count is to fail. *)
Theorem num_files_at_level_cast :
  number_levels_ example_stats = 3 /\
  GetPropertyType "rocksdb.num-files-at-level4294967296"
  = mkPropertyInfo kNumFilesAtLevel false false /\
  ConsumeDecimalNumber "4294967296" = Some (4294967296, "") /\
  to_int 4294967296 = 0 /\
  GetProperty 500 "rocksdb.num-files-at-level4294967296" example_stats
  = (true, example_stats, [Text "2"]).
Proof. repeat split. Qed.

(** * Further properties of the code *)

(** ** The catalog, read backwards *)

Lemma starts_with_split (pre p : string) :
  starts_with p pre = true ->
  p = String.append pre (remove_prefix (String.length pre) p).
Proof.
  unfold starts_with. revert p.
  induction pre as [| a pre IH]; intros p H.
  - reflexivity.
  - destruct p as [| b p]; [discriminate H |].
    simpl in H. destruct (ascii_dec a b) as [-> | _]; [| discriminate H].
    simpl. f_equal. apply IH. exact H.
Qed.

Lemma starts_with_append (pre suffix : string) :
  starts_with (String.append pre suffix) pre = true.
Proof.
  unfold starts_with. induction pre as [| a pre IH]; simpl.
  - destruct suffix; reflexivity.
  - destruct (ascii_dec a a); [exact IH | congruence].
Qed.

Lemma remove_prefix_append (pre suffix : string) :
  remove_prefix (String.length pre) (String.append pre suffix) = suffix.
Proof. induction pre as [| a pre IH]; [reflexivity | exact IH]. Qed.

Ltac case_names :=
  repeat match goal with
         | |- context [if (?a =? ?b)%string then _ else _] =>
             destruct (String.eqb_spec a b)
         end.

Lemma property_name_only (property name : string) (k : DBPropertyType) :
  property_type (GetPropertyType property) = k ->
  property_name k = Some name ->
  property = String.append "rocksdb." name.
Proof.
  intros Hk Hname.
  destruct (starts_with property "rocksdb.") eqn:Hp.
  - rewrite (starts_with_split "rocksdb." property Hp). f_equal.
    revert Hk. unfold GetPropertyType. rewrite Hp. cbn [negb].
    generalize (remove_prefix (String.length "rocksdb.") property).
    intros in_ Hk.
    destruct (starts_with in_ "num-files-at-level");
      [subst k; discriminate Hname |].
    revert Hk. case_names; cbn [property_type]; intros <-;
      simpl in Hname; congruence.
  - rewrite (GetPropertyType_no_prefix property Hp) in Hk.
    subst k. discriminate Hname.
Qed.

(** Names and kinds correspond one to one: for a kind that has a name
    (every kind but unknown and files-at-level), [GetPropertyType]
    returns the kind exactly for the query string made of the prefix
    [rocksdb.] and that name; no other string, longer, shorter or in
    another case, resolves to it. *)
Theorem GetPropertyType_name (property name : string) (k : DBPropertyType) :
  property_name k = Some name ->
  (property_type (GetPropertyType property) = k <->
   property = String.append "rocksdb." name).
Proof.
  intros Hname. split.
  - intros Hk. exact (property_name_only property name k Hk Hname).
  - intros ->. destruct k; cbn in Hname; try discriminate Hname;
      injection Hname as <-; reflexivity.
Qed.

Lemma GetPropertyType_name_witness :
  property_type (GetPropertyType "rocksdb.num-snapshots") = kNumSnapshots <->
  "rocksdb.num-snapshots" = String.append "rocksdb." "num-snapshots".
Proof.
  apply (GetPropertyType_name "rocksdb.num-snapshots" "num-snapshots"
           kNumSnapshots).
  reflexivity.
Defined.

(** The files-at-level kind is returned exactly for the strings that
    start with [rocksdb.num-files-at-level], whatever follows. *)
Theorem GetPropertyType_num_files_iff (property : string) :
  property_type (GetPropertyType property) = kNumFilesAtLevel <->
  exists suffix,
    property = String.append "rocksdb.num-files-at-level" suffix.
Proof.
  split.
  - intros Hk.
    destruct (starts_with property "rocksdb.") eqn:Hp.
    + pose proof (starts_with_split "rocksdb." property Hp) as Hsplit.
      revert Hk. unfold GetPropertyType. rewrite Hp. cbn [negb].
      set (in_ := remove_prefix (String.length "rocksdb.") property) in *.
      destruct (starts_with in_ "num-files-at-level") eqn:Hn.
      * intros _. exists (remove_prefix (String.length "num-files-at-level") in_).
        rewrite Hsplit.
        rewrite (starts_with_split "num-files-at-level" in_ Hn) at 1.
        reflexivity.
      * case_ifs; cbn [property_type]; discriminate.
    + rewrite (GetPropertyType_no_prefix property Hp) in Hk. discriminate Hk.
  - intros [suffix ->]. rewrite GetPropertyType_num_files_at_level. reflexivity.
Qed.

(** [is_int_property] is false exactly for the strings without the prefix
    and for the six kinds of the string path; in particular it is true
    for every integer kind. *)
Theorem GetPropertyType_is_int_property (property : string) :
  is_int_property (GetPropertyType property) = false <->
  starts_with property "rocksdb." = false \/
  In (property_type (GetPropertyType property)) string_kinds.
Proof.
  unfold GetPropertyType.
  destruct (starts_with property "rocksdb.") eqn:Hp; cbn [negb].
  - case_ifs; cbn [is_int_property property_type string_kinds In];
      intuition congruence.
  - cbn. split; [left; reflexivity | reflexivity].
Qed.

(** ** The three paths *)

Lemma GetPropertyType_results (property : string) :
  In (GetPropertyType property) catalog_results.
Proof.
  unfold GetPropertyType. case_ifs; cbn; intuition congruence.
Qed.

Lemma GetStringProperty_report_succeeds (now : Z) (k : DBPropertyType)
    (property : string) (s : InternalStats) (value : list Chunk) :
  In k (kSsTables :: report_kinds) ->
  fst (fst (GetStringProperty now k property s value)) = true.
Proof.
  cbn [In report_kinds].
  intros [<- | [<- | [<- | [<- | [<- | []]]]]];
    unfold GetStringProperty, GetStringProperty_case.
  - reflexivity.
  - reflexivity.
  - rewrite DumpCFStats_report. cbn [negb].
    destruct (DumpDBStats now _ _). reflexivity.
  - rewrite DumpCFStats_report. reflexivity.
  - destruct (DumpDBStats now s value). reflexivity.
Qed.

(** With the lock held, [GetIntProperty] succeeds exactly for the thirteen
    kinds it has a case for, and when it fails the output value is left as
    it was; the isolated kind (estimated table-reader memory), the string
    kinds and the unknown kind all fail here. *)
Theorem GetIntProperty_succeeds_iff (k : DBPropertyType) (value : Z)
    (db : DBImpl) (view : InLockView) :
  mutex_held db = true ->
  exists ok v,
    GetIntProperty k value db view = Some (ok, v) /\
    (ok = true <-> In k in_lock_int_kinds) /\
    (ok = false -> v = value).
Proof.
  intros Hheld. unfold GetIntProperty. rewrite Hheld. cbn [negb].
  destruct k; do 2 eexists; (split; [reflexivity |]);
    cbn [in_lock_int_kinds In]; intuition congruence.
Qed.

Lemma GetIntProperty_succeeds_iff_witness :
  exists ok v,
    GetIntProperty kEstimatedNumKeys 7 example_db example_view = Some (ok, v) /\
    (ok = true <-> In kEstimatedNumKeys in_lock_int_kinds) /\
    (ok = false -> v = 7).
Proof.
  apply (GetIntProperty_succeeds_iff kEstimatedNumKeys 7 example_db example_view).
  reflexivity.
Defined.

(** The flags of the catalog select a path that answers: for every query
    string resolved to a kind other than unknown, the isolated path
    succeeds when [need_out_of_mutex] is set, the in-lock path (lock held)
    succeeds when only [is_int_property] is set, and the string path
    succeeds when neither is set, files-at-level apart, whose success
    depends on the level. *)
Theorem catalog_flags_select_path (property : string) (now value : Z)
    (version : option Version) (db : DBImpl) (view : InLockView)
    (s : InternalStats) (out : list Chunk) :
  let info := GetPropertyType property in
  let k := property_type info in
  mutex_held db = true -> k <> kUnknown ->
  if need_out_of_mutex info then
    fst (GetIntPropertyOutOfMutex k version value) = true
  else if is_int_property info then
    exists v, GetIntProperty k value db view = Some (true, v)
  else
    k = kNumFilesAtLevel \/
    fst (fst (GetStringProperty now k property s out)) = true.
Proof.
  intros info k Hheld Hk. subst k.
  pose proof (GetPropertyType_results property) as Hin. fold info in Hin.
  clearbody info. cbn in Hin.
  repeat (destruct Hin as [<- | Hin]);
    try contradiction; cbn [need_out_of_mutex is_int_property property_type] in *;
    try congruence;
    try (left; reflexivity);
    try (right; apply GetStringProperty_report_succeeds; cbn; tauto);
    try (unfold GetIntProperty; rewrite Hheld; eexists; reflexivity).
  destruct version; reflexivity.
Qed.

Lemma catalog_flags_select_path_witness :
  (exists v,
     GetIntProperty kNumSnapshots 0 example_db example_view = Some (true, v)) /\
  fst (GetIntPropertyOutOfMutex kEstimatedUsageByTableReaders None 0) = true.
Proof.
  split.
  - apply (catalog_flags_select_path "rocksdb.num-snapshots" 500 0 None
             example_db example_view example_stats []);
      [reflexivity | discriminate].
  - apply (catalog_flags_select_path "rocksdb.estimate-table-readers-mem" 500 0
             None example_db example_view example_stats []);
      [reflexivity | discriminate].
Defined.

(** No kind is answered by two paths, and the unknown kind is answered by
    none: of the in-lock path, the isolated path and the string path, at
    most one returns success for a given kind. *)
Theorem paths_exclusive (k : DBPropertyType) (property : string)
    (now value : Z) (version : option Version) (db : DBImpl)
    (view : InLockView) (s : InternalStats) (out : list Chunk)
    (ok_lock : bool) (v : Z) :
  GetIntProperty k value db view = Some (ok_lock, v) ->
  let ok_iso := fst (GetIntPropertyOutOfMutex k version value) in
  let ok_str := fst (fst (GetStringProperty now k property s out)) in
  ok_lock && ok_iso = false /\ ok_lock && ok_str = false /\
  ok_iso && ok_str = false /\
  (k = kUnknown -> ok_lock = false /\ ok_iso = false /\ ok_str = false).
Proof.
  unfold GetIntProperty. destruct (mutex_held db); [| discriminate].
  cbn [negb].
  destruct k; intros H; injection H as <- _; cbn;
    repeat split; try reflexivity; try discriminate;
    try (destruct version; reflexivity).
Qed.

Lemma paths_exclusive_witness :
  let ok_iso := fst (GetIntPropertyOutOfMutex kNumSnapshots None 0) in
  let ok_str :=
    fst (fst (GetStringProperty 500 kNumSnapshots "rocksdb.num-snapshots"
                example_stats [])) in
  true && ok_iso = false /\ true && ok_str = false /\
  ok_iso && ok_str = false /\
  (kNumSnapshots = kUnknown -> true = false /\ ok_iso = false /\ ok_str = false).
Proof.
  apply (paths_exclusive kNumSnapshots "rocksdb.num-snapshots" 500 0 None
           example_db example_view example_stats [] true 2).
  reflexivity.
Defined.

(** ** What a string query changes *)

Lemma same_counters_refl (s : InternalStats) : same_counters s s.
Proof. repeat split. Qed.

Lemma DumpDBStats_fst (now : Z) (s : InternalStats) (value : list Chunk) :
  exists snap, fst (DumpDBStats now s value) = set_db_stats_snapshot s snap.
Proof. eexists. reflexivity. Qed.

(** A string query never writes a counter: whatever the kind and the
    property, the state after [GetStringProperty] has the counters, the
    levels and the column family of the state before; only the reports
    ([kStats], [kCFStats], [kDBStats]) change the state at all, in its
    epoch snapshots. *)
Theorem GetStringProperty_frame (now : Z) (k : DBPropertyType)
    (property : string) (s : InternalStats) (value : list Chunk) :
  let s' := snd (fst (GetStringProperty now k property s value)) in
  same_counters s s' /\
  (k <> kStats -> k <> kCFStats -> k <> kDBStats -> s' = s).
Proof.
  destruct k; cbn zeta;
    unfold GetStringProperty, GetStringProperty_case;
    rewrite ?DumpCFStats_report; cbn [negb];
    try (split; [apply same_counters_refl | reflexivity]);
    try (split; [repeat split | congruence]).
  - destruct (ConsumeDecimalNumber _) as [[level rest] |];
      [destruct (negb (slice_empty rest) || (number_levels_ s <=? to_int level)) |];
      (split; [apply same_counters_refl | reflexivity]).
Qed.

Lemma GetStringProperty_frame_witness :
  same_counters example_stats
    (snd (fst (GetStringProperty 500 kStats "rocksdb.stats" example_stats []))) /\
  snd (fst (GetStringProperty 500 kLevelStats "rocksdb.levelstats"
              example_stats [])) = example_stats.
Proof.
  split.
  - apply (GetStringProperty_frame 500 kStats "rocksdb.stats" example_stats []).
  - apply (GetStringProperty_frame 500 kLevelStats "rocksdb.levelstats"
             example_stats []); discriminate.
Defined.

(** A failed string query leaves no trace: when [GetStringProperty]
    returns false, the state and the output are those it was called with.
    The reports and the table dump never fail. *)
Theorem GetStringProperty_failure (now : Z) (k : DBPropertyType)
    (property : string) (s : InternalStats) (value : list Chunk) :
  (fst (fst (GetStringProperty now k property s value)) = false ->
   GetStringProperty now k property s value = (false, s, value)) /\
  (In k (kSsTables :: report_kinds) ->
   fst (fst (GetStringProperty now k property s value)) = true).
Proof.
  split; [| apply GetStringProperty_report_succeeds].
  destruct k;
    try (intros H;
         rewrite GetStringProperty_report_succeeds in H
           by (cbn; tauto);
         discriminate H);
    try (intros _; reflexivity).
  unfold GetStringProperty, GetStringProperty_case.
  destruct (ConsumeDecimalNumber _) as [[level rest] |];
    [destruct (negb (slice_empty rest) || (number_levels_ s <=? to_int level)) |];
    cbn; congruence.
Qed.

Lemma GetStringProperty_failure_witness :
  GetStringProperty 500 kNumFilesAtLevel "rocksdb.num-files-at-level7"
    example_stats [Text "kept"]
  = (false, example_stats, [Text "kept"]).
Proof.
  apply (GetStringProperty_failure 500 kNumFilesAtLevel
           "rocksdb.num-files-at-level7" example_stats [Text "kept"]).
  reflexivity.
Defined.

(** The reports append and the scalar queries replace: for [kLevelStats],
    [kStats], [kCFStats] and [kDBStats] the output after the call is the
    output before it followed by what the call prints on an empty output;
    for [kSsTables] and a successful files-at-level query the output after
    the call is a single text, whatever the output held before. *)
Theorem GetStringProperty_output (now : Z) (k : DBPropertyType)
    (property : string) (s : InternalStats) (value : list Chunk) :
  (In k report_kinds ->
   snd (GetStringProperty now k property s value)
   = value ++ snd (GetStringProperty now k property s [])) /\
  (In k [kNumFilesAtLevel; kSsTables] ->
   fst (fst (GetStringProperty now k property s value)) = true ->
   exists text,
     snd (GetStringProperty now k property s value) = [Text text] /\
     snd (GetStringProperty now k property s []) = [Text text]).
Proof.
  split.
  - cbn [In report_kinds].
    intros [<- | [<- | [<- | [<- | []]]]];
      unfold GetStringProperty, GetStringProperty_case.
    + reflexivity.
    + rewrite !DumpCFStats_report. cbn [negb].
      rewrite (surjective_pairing (DumpDBStats now _ (value ++ _))).
      rewrite (surjective_pairing (DumpDBStats now _ ([] ++ _))).
      cbn [negb snd].
      rewrite DumpDBStats_append.
      rewrite (DumpDBStats_append now _ ([] ++ _)).
      rewrite <- !app_assoc. reflexivity.
    + rewrite !DumpCFStats_report. reflexivity.
    + rewrite (surjective_pairing (DumpDBStats now s value)).
      rewrite (surjective_pairing (DumpDBStats now s [])).
      cbn [snd]. apply DumpDBStats_append.
  - cbn [In].
    intros [<- | [<- | []]];
      unfold GetStringProperty, GetStringProperty_case.
    + destruct (ConsumeDecimalNumber _) as [[level rest] |];
        [destruct (negb (slice_empty rest) || (number_levels_ s <=? to_int level)) |];
        cbn; intros H; try discriminate H.
      eexists. split; reflexivity.
    + intros _. eexists. split; reflexivity.
Qed.

Lemma GetStringProperty_output_witness :
  snd (GetStringProperty 500 kStats "rocksdb.stats" example_stats [Text "kept"])
  = [Text "kept"] ++
    snd (GetStringProperty 500 kStats "rocksdb.stats" example_stats []) /\
  exists text,
    snd (GetStringProperty 500 kNumFilesAtLevel "rocksdb.num-files-at-level1"
           example_stats [Text "dropped"]) = [Text text] /\
    snd (GetStringProperty 500 kNumFilesAtLevel "rocksdb.num-files-at-level1"
           example_stats []) = [Text text].
Proof.
  split.
  - apply (GetStringProperty_output 500 kStats "rocksdb.stats" example_stats
             [Text "kept"]).
    cbn. tauto.
  - apply (GetStringProperty_output 500 kNumFilesAtLevel
             "rocksdb.num-files-at-level1" example_stats [Text "dropped"]).
    + cbn. tauto.
    + reflexivity.
Defined.

(** ** Vectors *)

Lemma at_set_at_eq {A : Type} (d x : A) (v : list A) (i : Z) :
  0 <= i < Z.of_nat (length v) -> at_ d (set_at v i x) i = x.
Proof.
  intros Hi. unfold at_, set_at.
  destruct (Z.ltb_spec i 0); [lia |].
  rewrite list_lookup_insert_eq by lia. reflexivity.
Qed.

Lemma at_set_at_ne {A : Type} (d x : A) (v : list A) (i j : Z) :
  0 <= j -> i <> j -> at_ d (set_at v i x) j = at_ d v j.
Proof.
  intros Hj Hne. unfold at_, set_at.
  destruct (Z.ltb_spec j 0); [lia |].
  destruct (Z.ltb_spec i 0); [reflexivity |].
  rewrite list_lookup_insert_ne by lia. reflexivity.
Qed.

Lemma set_at_length {A : Type} (x : A) (v : list A) (i : Z) :
  length (set_at v i x) = length v.
Proof.
  unfold set_at. destruct (i <? 0); [reflexivity | apply length_insert].
Qed.

Lemma set_at_out_of_range {A : Type} (x : A) (v : list A) (i : Z) :
  Z.of_nat (length v) <= i -> set_at v i x = v.
Proof.
  intros Hi. unfold set_at.
  destruct (Z.ltb_spec i 0); [reflexivity |].
  apply list_insert_ge. lia.
Qed.

Lemma at_vector_init {A : Type} (d x : A) (n i : Z) :
  at_ d (vector_init n x) i = if (0 <=? i) && (i <? n) then x else d.
Proof.
  unfold at_, vector_init.
  destruct (Z.ltb_spec i 0); destruct (Z.leb_spec 0 i); try lia;
    [reflexivity |].
  destruct (Z.ltb_spec i n); cbn [andb].
  - rewrite lookup_replicate_2 by lia. reflexivity.
  - rewrite lookup_ge_None_2; [reflexivity |].
    rewrite length_replicate. lia.
Qed.

Lemma vector_init_length {A : Type} (x : A) (n : Z) :
  length (vector_init n x) = Z.to_nat n.
Proof. apply length_replicate. Qed.

(** ** Scatter of keyed values into a vector *)

Section Scatter.

Context {A : Type}.
Variable d : A.
Variable key : Z -> Z.
Variable val : Z -> A.

Let scatter (v : list A) (i : Z) : list A := set_at v (key i) (val i).

Lemma scatter_length (indices : list Z) (v : list A) :
  length (fold_left scatter indices v) = length v.
Proof.
  revert v. induction indices as [| i indices IH]; intros v;
    [reflexivity |].
  cbn [fold_left]. rewrite IH. apply set_at_length.
Qed.

Lemma scatter_untouched (indices : list Z) (v : list A) (j : Z) :
  0 <= j -> ~ In j (map key indices) ->
  at_ d (fold_left scatter indices v) j = at_ d v j.
Proof.
  revert v. induction indices as [| i indices IH]; intros v Hj Hnot;
    [reflexivity |].
  cbn [fold_left]. cbn [map In] in Hnot.
  rewrite IH by tauto. apply at_set_at_ne; [exact Hj | tauto].
Qed.

Lemma scatter_written (indices : list Z) (v : list A) (i : Z) :
  List.NoDup (map key indices) -> In i indices ->
  0 <= key i < Z.of_nat (length v) ->
  at_ d (fold_left scatter indices v) (key i) = val i.
Proof.
  revert v. induction indices as [| i0 indices IH]; intros v Hnd Hin Hrange;
    [contradiction |].
  cbn [fold_left]. cbn [map] in Hnd. inversion Hnd as [| k ks Hk Hnd']. subst.
  destruct Hin as [-> | Hin].
  - rewrite scatter_untouched; [| lia | exact Hk].
    apply at_set_at_eq. exact Hrange.
  - apply IH; [exact Hnd' | exact Hin |].
    unfold scatter. rewrite set_at_length. exact Hrange.
Qed.

End Scatter.

(** ** Compaction scores, back in level order *)

(** The scores are scattered back to level order: when the levels named
    by the score list over the first [num_levels_to_check] positions are
    distinct, the score of the level named at a position is the score
    listed at that position, provided the level is one of the column
    family's; every other level has score 0, and the vector keeps one
    entry per level. *)
Theorem level_compaction_scores_scatter (s : InternalStats) :
  let vstorage := storage_info (current (cfd_ s)) in
  let positions := seqZ 0 (num_levels_to_check s) in
  List.NoDup (map (CompactionScoreLevel vstorage) positions) ->
  length (level_compaction_scores s) = Z.to_nat (number_levels_ s) /\
  (forall i,
     0 <= i < num_levels_to_check s ->
     0 <= CompactionScoreLevel vstorage i < number_levels_ s ->
     at_ (Z2D 0) (level_compaction_scores s) (CompactionScoreLevel vstorage i)
     = CompactionScore vstorage i) /\
  (forall level,
     0 <= level ->
     ~ In level (map (CompactionScoreLevel vstorage) positions) ->
     at_ (Z2D 0) (level_compaction_scores s) level = Z2D 0).
Proof.
  intros vstorage positions Hnd. unfold level_compaction_scores.
  fold vstorage. fold positions.
  split; [| split].
  - rewrite scatter_length. apply vector_init_length.
  - intros i Hi Hlevel.
    apply (scatter_written (Z2D 0) (CompactionScoreLevel vstorage)
             (CompactionScore vstorage)).
    + exact Hnd.
    + apply In_seqZ. exact Hi.
    + rewrite vector_init_length. lia.
  - intros level Hlevel Hnot.
    rewrite (scatter_untouched (Z2D 0) (CompactionScoreLevel vstorage)
               (CompactionScore vstorage)) by assumption.
    rewrite at_vector_init.
    destruct ((0 <=? level) && (level <? number_levels_ s)); reflexivity.
Qed.

Lemma level_compaction_scores_scatter_witness :
  at_ (Z2D 0) (level_compaction_scores example_stats) 1 = Z2D 2 /\
  at_ (Z2D 0) (level_compaction_scores example_stats) 0 = Z2D 1 /\
  at_ (Z2D 0) (level_compaction_scores example_stats) 2 = Z2D 0.
Proof.
  assert (List.NoDup
            (map (CompactionScoreLevel
                    (storage_info (current (cfd_ example_stats))))
               (seqZ 0 (num_levels_to_check example_stats)))) as Hnd.
  { vm_compute. repeat constructor.
    - intros [H | []]. discriminate H.
    - intros []. }
  destruct (level_compaction_scores_scatter example_stats Hnd)
    as (_ & Hwritten & Hzero).
  split; [| split].
  - apply (Hwritten 0); vm_compute; split; congruence.
  - apply (Hwritten 1); vm_compute; split; congruence.
  - apply (Hzero 2); [lia |]. vm_compute.
    intros [H | [H | []]]; discriminate H.
Defined.

(** ** Files and files being compacted *)

Lemma at_out_of_range {A : Type} (d : A) (v : list A) (i : Z) :
  Z.of_nat (length v) <= i -> at_ d v i = d.
Proof.
  intros Hi. unfold at_. destruct (Z.ltb_spec i 0); [reflexivity |].
  rewrite lookup_ge_None_2 by lia. reflexivity.
Qed.

Section BeingCompacted.

Variable vstorage : VersionStorageInfo.

Let count_level (fbc : list Z) (level : Z) : list Z :=
  fold_left
    (fun fbc f =>
       if being_compacted f then set_at fbc level (at_ 0 fbc level + 1)
       else fbc)
    (LevelFiles vstorage level) fbc.

Lemma count_files_length (level : Z) (files : list FileMetaData) (v : list Z) :
  length
    (fold_left
       (fun fbc f =>
          if being_compacted f then set_at fbc level (at_ 0 fbc level + 1)
          else fbc) files v) = length v.
Proof.
  revert v. induction files as [| f files IH]; intros v; [reflexivity |].
  cbn [fold_left]. rewrite IH.
  destruct (being_compacted f); [apply set_at_length | reflexivity].
Qed.

Lemma count_files_other (level j : Z) (files : list FileMetaData) (v : list Z) :
  0 <= j -> j <> level ->
  at_ 0
    (fold_left
       (fun fbc f =>
          if being_compacted f then set_at fbc level (at_ 0 fbc level + 1)
          else fbc) files v) j = at_ 0 v j.
Proof.
  intros Hj Hne. revert v.
  induction files as [| f files IH]; intros v; [reflexivity |].
  cbn [fold_left]. rewrite IH.
  destruct (being_compacted f); [| reflexivity].
  apply at_set_at_ne; [exact Hj | congruence].
Qed.

Lemma count_files_same (level : Z) (files : list FileMetaData) (v : list Z) :
  0 <= level < Z.of_nat (length v) ->
  at_ 0
    (fold_left
       (fun fbc f =>
          if being_compacted f then set_at fbc level (at_ 0 fbc level + 1)
          else fbc) files v) level
  = at_ 0 v level + being_compacted_count files.
Proof.
  revert v. induction files as [| f files IH]; intros v Hlevel.
  - unfold being_compacted_count. cbn. lia.
  - cbn [fold_left]. unfold being_compacted_count. cbn [List.filter].
    destruct (being_compacted f).
    + rewrite IH by (rewrite set_at_length; exact Hlevel).
      rewrite at_set_at_eq by exact Hlevel.
      unfold being_compacted_count. cbn [length]. lia.
    + rewrite IH by exact Hlevel. reflexivity.
Qed.

Lemma count_levels_length (levels : list Z) (v : list Z) :
  length (fold_left count_level levels v) = length v.
Proof.
  revert v. induction levels as [| level levels IH]; intros v;
    [reflexivity |].
  cbn [fold_left]. rewrite IH. apply count_files_length.
Qed.

Lemma count_levels_untouched (levels : list Z) (v : list Z) (j : Z) :
  0 <= j -> ~ In j levels -> at_ 0 (fold_left count_level levels v) j = at_ 0 v j.
Proof.
  revert v. induction levels as [| level levels IH]; intros v Hj Hnot;
    [reflexivity |].
  cbn [fold_left]. cbn [In] in Hnot.
  rewrite IH by tauto. apply count_files_other; [exact Hj | intuition].
Qed.

Lemma count_levels_counted (levels : list Z) (v : list Z) (j : Z) :
  List.NoDup levels -> In j levels -> 0 <= j < Z.of_nat (length v) ->
  at_ 0 (fold_left count_level levels v) j
  = at_ 0 v j + being_compacted_count (LevelFiles vstorage j).
Proof.
  revert v. induction levels as [| level levels IH]; intros v Hnd Hin Hrange;
    [contradiction |].
  cbn [fold_left]. inversion Hnd as [| k ks Hk Hnd']. subst.
  destruct Hin as [-> | Hin].
  - rewrite count_levels_untouched; [| lia | exact Hk].
    apply count_files_same. exact Hrange.
  - assert (j <> level) as Hne by (intros ->; contradiction).
    rewrite IH; [| exact Hnd' | exact Hin |].
    + f_equal. apply count_files_other; [lia | exact Hne].
    + unfold count_level. rewrite count_files_length. exact Hrange.
Qed.

End BeingCompacted.

Lemma NoDup_seqZ_list (n : Z) : List.NoDup (seqZ 0 n).
Proof. apply NoDup_ListNoDup, NoDup_seqZ. Qed.

(** The count of files being compacted, per level: for a level below
    [num_levels_to_check] (and within the column family) it is the number
    of files of the level flagged [being_compacted]; for every other level
    it is 0, whatever the flags of its files. *)
Lemma level_files_being_compacted_at (s : InternalStats) (level : Z) :
  0 <= level ->
  at_ 0 (level_files_being_compacted s) level
  = if (level <? num_levels_to_check s) && (level <? number_levels_ s)
    then being_compacted_count
           (LevelFiles (storage_info (current (cfd_ s))) level)
    else 0.
Proof.
  intros Hlevel. unfold level_files_being_compacted.
  destruct (Z.ltb_spec level (num_levels_to_check s)) as [Hcheck | Hcheck];
    destruct (Z.ltb_spec level (number_levels_ s)) as [Hn | Hn]; cbn [andb].
  - rewrite count_levels_counted.
    + rewrite at_vector_init.
      destruct (Z.leb_spec 0 level); [| lia].
      destruct (Z.ltb_spec level (number_levels_ s)); [| lia].
      reflexivity.
    + apply NoDup_seqZ_list.
    + apply In_seqZ. lia.
    + rewrite vector_init_length. lia.
  - apply at_out_of_range. rewrite count_levels_length, vector_init_length. lia.
  - rewrite count_levels_untouched; [| exact Hlevel | rewrite In_seqZ; lia].
    rewrite at_vector_init.
    destruct ((0 <=? level) && (level <? number_levels_ s)); reflexivity.
  - apply at_out_of_range. rewrite count_levels_length, vector_init_length. lia.
Qed.

(** The being-compacted figure of a level row: for a level below
    [num_levels_to_check] the row shows the number of files of the level
    flagged [being_compacted]; for the levels from [num_levels_to_check]
    on (the last level under level-style compaction, every level but 0
    under the universal and FIFO styles) the row shows 0 even when files
    of the level are being compacted. *)
Theorem level_row_being_compacted (s : InternalStats) (value : list Chunk)
    (level : Z) :
  In level (rendered_levels s) ->
  exists r,
    In (LevelStatsRow r) (snd (DumpCFStats s value)) /\
    row_name r = String.append "L" (ToString level) /\
    row_being_compacted r
    = if level <? num_levels_to_check s
      then being_compacted_count
             (LevelFiles (storage_info (current (cfd_ s))) level)
      else 0.
Proof.
  intros Hin. pose proof (proj1 (In_rendered_levels s level) Hin) as [Hrange _].
  eexists. split; [exact (level_row_in_report s value level Hin) |].
  split; [reflexivity |].
  cbn [row_being_compacted].
  rewrite level_files_being_compacted_at by lia.
  destruct (Z.ltb_spec level (number_levels_ s)); [| lia].
  rewrite andb_true_r. reflexivity.
Qed.

Lemma level_row_being_compacted_witness :
  (exists r,
     In (LevelStatsRow r) (snd (DumpCFStats last_level_stats [])) /\
     row_name r = "L1" /\ row_being_compacted r = 1) /\
  (exists r,
     In (LevelStatsRow r) (snd (DumpCFStats last_level_stats [])) /\
     row_name r = "L2" /\ row_being_compacted r = 0).
Proof.
  split.
  - apply (level_row_being_compacted last_level_stats [] 1).
    right. left. reflexivity.
  - apply (level_row_being_compacted last_level_stats [] 2).
    right. right. left. reflexivity.
Defined.

Lemma Zsum_filter (f : Z -> Z) (p : Z -> bool) (levels : list Z) :
  (forall level, p level = false -> f level = 0) ->
  Zsum f (List.filter p levels) = Zsum f levels.
Proof.
  intros Hzero. induction levels as [| level levels IH]; [reflexivity |].
  cbn [List.filter Zsum fold_right]. destruct (p level) eqn:Hp.
  - cbn [Zsum fold_right]. unfold Zsum in IH. rewrite IH. reflexivity.
  - unfold Zsum in IH. rewrite IH, (Hzero level Hp). reflexivity.
Qed.

Lemma level_loop_total_files (s : InternalStats) (compaction_score : list double)
    (files_being_compacted : list Z) (levels : list Z) (t : CFTotals)
    (value : list Chunk) :
  let r :=
    fst (fold_left
           (DumpCFStats_level s compaction_score files_being_compacted)
           levels (t, value)) in
  total_files r
  = total_files t +
    Zsum (NumLevelFiles (storage_info (current (cfd_ s)))) levels /\
  total_files_being_compacted r
  = total_files_being_compacted t + Zsum (at_ 0 files_being_compacted) levels.
Proof.
  revert t value. induction levels as [| level levels IH]; intros t value.
  - cbn. split; lia.
  - cbn [fold_left Zsum fold_right].
    destruct (DumpCFStats_level s compaction_score files_being_compacted
                (t, value) level) as [t1 v1] eqn:Hstep.
    destruct (IH t1 v1) as [Hfiles Hfbc]. cbv zeta in Hfiles, Hfbc.
    unfold Zsum in Hfiles, Hfbc. rewrite Hfiles, Hfbc.
    unfold DumpCFStats_level in Hstep.
    destruct (level_is_rendered s level); injection Hstep as <- _;
      cbn [total_files total_files_being_compacted]; split; lia.
Qed.

Lemma NumLevelFiles_omitted (s : InternalStats) (level : Z) :
  level_is_rendered s level = false ->
  NumLevelFiles (storage_info (current (cfd_ s))) level = 0.
Proof.
  unfold level_is_rendered. intros H. apply orb_false_elim in H.
  destruct H as [_ H]. apply Z.ltb_ge in H.
  unfold NumLevelFiles in *. lia.
Qed.

(** No file is lost by omitting a row: the Files figure of the "Sum" row
    is the number of files over all the levels of the column family, and
    it equals the sum of the Files figures of the level rows that are
    printed.  Its being-compacted figure is the sum of the per-level
    counts over all the levels. *)
Theorem sum_row_files (s : InternalStats) (value : list Chunk) :
  let vstorage := storage_info (current (cfd_ s)) in
  exists r,
    In (LevelStatsRow r) (snd (DumpCFStats s value)) /\
    row_name r = "Sum" /\
    row_files r = Zsum (NumLevelFiles vstorage) (seqZ 0 (number_levels_ s)) /\
    row_files r = Zsum (NumLevelFiles vstorage) (rendered_levels s) /\
    row_being_compacted r
    = Zsum (at_ 0 (level_files_being_compacted s)) (seqZ 0 (number_levels_ s)).
Proof.
  intros vstorage.
  eexists. split; [exact (sum_row_in_report s value) |].
  split; [reflexivity |].
  cbn [row_files row_being_compacted].
  destruct (level_loop_total_files s (level_compaction_scores s)
              (level_files_being_compacted s) (seqZ 0 (number_levels_ s))
              CFTotals_init []) as [Hfiles Hfbc].
  cbv zeta in Hfiles, Hfbc.
  unfold cf_totals, DumpCFStats_levels.
  split; [| split].
  - rewrite Hfiles. reflexivity.
  - rewrite Hfiles. unfold rendered_levels.
    rewrite Zsum_filter; [reflexivity |].
    apply NumLevelFiles_omitted.
  - rewrite Hfbc. reflexivity.
Qed.

(** ** One file count, three queries *)

(** The three queries that show the file count of a level agree: for a
    level of the column family (below 2^31), the files-at-level query
    succeeds with the count in decimal, the level-stats table has a row
    for the level with the same count, whether or not the level holds a
    file, and when the level holds a file the per-column-family table has
    a row for it with the same count. *)
Theorem file_count_agrees (now : Z) (s : InternalStats) (value : list Chunk)
    (level : Z) :
  0 <= level < number_levels_ s -> level < 2 ^ 31 ->
  let vstorage := storage_info (current (cfd_ s)) in
  let n := NumLevelFiles vstorage level in
  GetStringProperty now kNumFilesAtLevel
    (String.append "rocksdb.num-files-at-level" (ToString level)) s value
  = (true, s, [Text (ToString n)]) /\
  In (LevelSummaryRow level n (Z2D (NumLevelBytes vstorage level) / kMB)%Qc)
     (snd (GetStringProperty now kLevelStats "rocksdb.levelstats" s value)) /\
  (0 < n ->
   exists r,
     In (LevelStatsRow r)
        (snd (GetStringProperty now kCFStats "rocksdb.cfstats" s value)) /\
     row_name r = String.append "L" (ToString level) /\ row_files r = n).
Proof.
  intros Hlevel Hint vstorage n. split; [| split].
  - apply GetStringProperty_num_files_in_range; assumption.
  - unfold GetStringProperty, GetStringProperty_case. cbn [snd].
    apply in_or_app. right. unfold level_summary. right.
    apply (in_map (fun level =>
                     LevelSummaryRow level (NumLevelFiles vstorage level)
                       (Z2D (NumLevelBytes vstorage level) / kMB)%Qc)).
    apply In_seqZ. exact Hlevel.
  - intros Hn.
    assert (In level (rendered_levels s)) as Hin.
    { apply In_rendered_levels. split; [exact Hlevel | right; exact Hn]. }
    assert (snd (GetStringProperty now kCFStats "rocksdb.cfstats" s value)
            = snd (DumpCFStats s value)) as ->.
    { unfold GetStringProperty, GetStringProperty_case.
      destruct (DumpCFStats s value). reflexivity. }
    eexists. split; [exact (level_row_in_report s value level Hin) |].
    split; reflexivity.
Qed.

Lemma file_count_agrees_witness :
  GetStringProperty 500 kNumFilesAtLevel
    (String.append "rocksdb.num-files-at-level" (ToString 1)) example_stats []
  = (true, example_stats, [Text "5"]) /\
  In (LevelSummaryRow 1 5 (Z2D 5242880 / kMB)%Qc)
     (snd (GetStringProperty 500 kLevelStats "rocksdb.levelstats"
             example_stats [])).
Proof.
  destruct (file_count_agrees 500 example_stats [] 1) as (Hnum & Hrow & _).
  - cbn. lia.
  - lia.
  - split; [exact Hnum | exact Hrow].
Defined.

Lemma GetStringProperty_num_files_out_of_range_witness :
  GetStringProperty 500 kNumFilesAtLevel
    (String.append "rocksdb.num-files-at-level" (ToString 3)) example_stats
    [Text "kept"]
  = (false, example_stats, [Text "kept"]).
Proof.
  apply GetStringProperty_num_files_out_of_range; cbn; lia.
Defined.

(** ** Reports and the epoch snapshot *)

Lemma same_counters_snapshots (s s' : InternalStats) :
  same_counters s s' ->
  s' = set_db_stats_snapshot
         (set_cf_stats_snapshot s (cf_stats_snapshot_ s'))
         (db_stats_snapshot_ s').
Proof.
  destruct s, s'. unfold same_counters. cbn.
  intros (-> & -> & -> & -> & -> & -> & -> & -> & -> & -> & ->).
  reflexivity.
Qed.

Lemma filter_cumulative_level_rows (s : InternalStats)
    (compaction_score : list double) (files_being_compacted : list Z)
    (levels : list Z) :
  List.filter is_cumulative_chunk
    (map (level_row s compaction_score files_being_compacted) levels)
  = map (level_row s compaction_score files_being_compacted) levels.
Proof.
  induction levels as [| level levels IH]; [reflexivity |].
  cbn [map List.filter]. change (is_cumulative_chunk (level_row _ _ _ _)) with true.
  cbv iota. f_equal. exact IH.
Qed.

Lemma DumpCFStats_cumulative (s : InternalStats) :
  List.filter is_cumulative_chunk (snd (DumpCFStats s []))
  = PrintLevelStatsHeader (GetName (cfd_ s)) ::
    map (level_row s (level_compaction_scores s) (level_files_being_compacted s))
      (rendered_levels s) ++
    cf_sum_row s :: cf_stall_lines s.
Proof.
  rewrite DumpCFStats_report. cbn [snd app].
  cbn [List.filter is_cumulative_chunk PrintLevelStatsHeader is_interval_chunk negb].
  rewrite List.filter_app, filter_cumulative_level_rows. reflexivity.
Qed.

(** The cumulative view is a function of the counters alone: two states
    that hold the same counters, whatever their epoch snapshots and
    whatever the clock, print the same header, level rows, "Sum" row,
    stall lines and cumulative DB lines; asking for a report again, with
    no counter changed, repeats its cumulative figures. *)
Theorem cumulative_figures_idempotent (now now' : Z) (s s' : InternalStats) :
  same_counters s s' ->
  List.filter is_cumulative_chunk (snd (DumpCFStats s' []))
  = List.filter is_cumulative_chunk (snd (DumpCFStats s [])) /\
  List.filter is_cumulative_chunk (snd (DumpDBStats now' s' []))
  = List.filter is_cumulative_chunk (snd (DumpDBStats now s [])).
Proof.
  intros Hsame. rewrite (same_counters_snapshots s s' Hsame).
  split.
  - rewrite !DumpCFStats_cumulative. reflexivity.
  - reflexivity.
Qed.

Lemma cumulative_figures_idempotent_witness :
  List.filter is_cumulative_chunk (snd (DumpDBStats 900 rewound_stats []))
  = List.filter is_cumulative_chunk (snd (DumpDBStats 500 example_stats [])).
Proof.
  apply (cumulative_figures_idempotent 500 900 example_stats rewound_stats).
  repeat split.
Defined.

(** One epoch is remembered, and it is overwritten: the snapshot a report
    stores is determined by the counters (and, for the uptime, by the
    clock); it does not depend on the snapshot that was stored before. *)
Theorem snapshot_overwritten (now : Z) (s s' : InternalStats)
    (v v' : list Chunk) :
  same_counters s s' ->
  cf_stats_snapshot_ (fst (DumpCFStats s' v'))
  = cf_stats_snapshot_ (fst (DumpCFStats s v)) /\
  db_stats_snapshot_ (fst (DumpDBStats now s' v'))
  = db_stats_snapshot_ (fst (DumpDBStats now s v)).
Proof.
  intros Hsame. rewrite (same_counters_snapshots s s' Hsame).
  rewrite !DumpCFStats_report. split; reflexivity.
Qed.

Lemma snapshot_overwritten_witness :
  db_stats_snapshot_ (fst (DumpDBStats 500 rewound_stats []))
  = db_stats_snapshot_ (fst (DumpDBStats 500 example_stats [])).
Proof.
  apply (snapshot_overwritten 500 example_stats rewound_stats [] []).
  repeat split.
Defined.

(** ** Arithmetic of the figures *)

Lemma Z2D_add (a b : Z) : Z2D (a + b) = (Z2D a + Z2D b)%Qc.
Proof.
  apply Qc_is_canon. unfold Z2D, Qcplus, Q2Qc. cbn [this].
  rewrite !Qred_correct. rewrite inject_Z_plus. reflexivity.
Qed.

Lemma Z2D_sub (a b : Z) : Z2D (a - b) = (Z2D a - Z2D b)%Qc.
Proof.
  apply Qc_is_canon. unfold Z2D, Qcminus, Qcplus, Qcopp, Q2Qc. cbn [this].
  rewrite !Qred_correct. unfold Z.sub.
  rewrite inject_Z_plus, inject_Z_opp. reflexivity.
Qed.

Lemma kGB_nonzero : kGB <> Z2D 0.
Proof.
  intros H. apply (f_equal this) in H. vm_compute in H. discriminate H.
Qed.

(** The uptime line: when the clock does not run backwards (and stays
    below 2^64 - 1), the report made at [now2] after a report made at
    [now1] shows as its total the quotient of [now2 - started_at_ + 1]
    microseconds by 10^6, and as its interval that total minus the total
    of the report made at [now1], which the snapshot holds; two reports
    at one clock reading show an interval of 0. *)
Theorem uptime_interval (now1 now2 : Z) (s : InternalStats)
    (v1 v2 : list Chunk) :
  0 <= started_at_ s <= now1 -> now1 <= now2 < two64 - 1 ->
  let s1 := fst (DumpDBStats now1 s v1) in
  let total1 := (Z2D (now1 - started_at_ s + 1) / kMicros)%Qc in
  let total2 := (Z2D (now2 - started_at_ s + 1) / kMicros)%Qc in
  nth_error (snd (DumpDBStats now2 s1 v2)) (length v2)
  = Some (DBStatsUptime total2 (total2 - total1)%Qc) /\
  (now2 = now1 ->
   nth_error (snd (DumpDBStats now2 s1 v2)) (length v2)
   = Some (DBStatsUptime total2 (Z2D 0))).
Proof.
  intros Hstart Hnow s1 total1 total2.
  assert (forall now, started_at_ s <= now < two64 - 1 ->
            wrap64 (wrap64 (now - started_at_ s) + 1) = now - started_at_ s + 1)
    as Hwrap.
  { intros now H. rewrite (wrap64_small (now - started_at_ s));
      [apply wrap64_small |]; unfold is_uint64; lia. }
  assert (nth_error (snd (DumpDBStats now2 s1 v2)) (length v2)
          = Some (DBStatsUptime total2 (total2 - total1)%Qc)) as Hline.
  { rewrite DumpDBStats_append.
    rewrite nth_error_app2 by lia. rewrite Nat.sub_diag.
    unfold s1, total1, total2, DumpDBStats. cbn [snd fst app nth_error].
    cbn [db_stats_snapshot_ set_db_stats_snapshot started_at_
         DBStatsSnapshot.seconds_up].
    rewrite !Hwrap by lia. reflexivity. }
  split; [exact Hline |].
  intros Heq. rewrite Hline. unfold total1, total2. subst now2.
  rewrite Qcminus_diag. reflexivity.
Qed.

Lemma uptime_interval_witness :
  nth_error
    (snd (DumpDBStats 2000100 (fst (DumpDBStats 1000100 example_stats [])) []))
    0
  = Some (DBStatsUptime (Z2D (2000100 - 100 + 1) / kMicros)%Qc
            (Z2D (2000100 - 100 + 1) / kMicros -
             Z2D (1000100 - 100 + 1) / kMicros)%Qc).
Proof.
  apply (uptime_interval 1000100 2000100 example_stats [] []);
    unfold two64; cbn; lia.
Defined.



(** The volumes of a row add up while the byte counters stay below 2^53,
    where their conversion to [double] and their division by 2^30 are
    exact: when the two read counters sum to less than 2^53, Read(GB) is
    Rn(GB) + Rnp1(GB); and when the bytes written are below 2^53 and the
    bytes read from the next level do not exceed them, Write(GB) is
    Wnew(GB) + Rnp1(GB). *)
Theorem PrintLevelStats_volumes (name : string) (num_files being : Z)
    (total_file_size score w_amp stall_us : double) (stalls : Z)
    (stats : CompactionStats) :
  CompactionStats_wf stats ->
  exists r,
    PrintLevelStats name num_files being total_file_size score w_amp stall_us
      stalls stats = LevelStatsRow r /\
    (bytes_readn stats + bytes_readnp1 stats < 2 ^ 53 ->
     row_read_gb r = (row_rn_gb r + row_rnp1_gb r)%Qc) /\
    (bytes_readnp1 stats <= bytes_written stats < 2 ^ 53 ->
     row_write_gb r = (row_wnew_gb r + row_rnp1_gb r)%Qc).
Proof.
  unfold PrintLevelStats, CompactionStats_wf, is_uint64.
  intros (_ & Hn & Hnp1 & Hw & _).
  eexists. split; [reflexivity |].
  cbn [row_read_gb row_rn_gb row_rnp1_gb row_write_gb row_wnew_gb].
  pose proof kGB_nonzero.
  assert (2 ^ 53 < two64) as Hpow by reflexivity.
  split.
  - intros Hsum. rewrite wrap64_small by (unfold is_uint64; lia).
    rewrite Z2D_add. unfold double. field. assumption.
  - intros Hle. rewrite wrap64_small by (unfold is_uint64; lia).
    rewrite Z2D_sub. unfold double. field. assumption.
Qed.

Lemma PrintLevelStats_volumes_witness :
  exists r,
    PrintLevelStats "L1" 5 1 (Z2D 5242880) (Z2D 2) (Z2D 1) (Z2D 3000) 2
      (mkCompactionStats 2000000 104857600 52428800 125829120 0 10 2 4)
    = LevelStatsRow r /\
    row_read_gb r = (row_rn_gb r + row_rnp1_gb r)%Qc /\
    row_write_gb r = (row_wnew_gb r + row_rnp1_gb r)%Qc.
Proof.
  destruct (PrintLevelStats_volumes "L1" 5 1 (Z2D 5242880) (Z2D 2) (Z2D 1)
              (Z2D 3000) 2
              (mkCompactionStats 2000000 104857600 52428800 125829120 0 10 2 4))
    as (r & Hr & Hread & Hwrite).
  - unfold CompactionStats_wf, is_uint64, two64. cbn. lia.
  - exists r. split; [exact Hr |].
    split; [apply Hread | apply Hwrite]; cbn; lia.
Defined.

(** ** The level table and its aggregate rows *)

(** What the level loop accumulates, beside the statistics and the file
    counts: each total is its initial value to which the figures of the
    levels that get a row are added, in level order. *)
Lemma level_loop_accumulators (s : InternalStats)
    (compaction_score : list double) (files_being_compacted : list Z)
    (levels : list Z) (t : CFTotals) (value : list Chunk) :
  let vstorage := storage_info (current (cfd_ s)) in
  let r :=
    fst (fold_left
           (DumpCFStats_level s compaction_score files_being_compacted)
           levels (t, value)) in
  let shown := List.filter (level_is_rendered s) levels in
  total_file_size r
  = fold_left (fun acc level => (acc + Z2D (NumLevelBytes vstorage level))%Qc)
      shown (total_file_size t) /\
  total_stall_us r
  = fold_left (fun acc level => (acc + level_stall_us s level)%Qc)
      shown (total_stall_us t) /\
  total_stall_count r
  = fold_left (fun acc level => wrap64 (acc + level_stalls s level))
      shown (total_stall_count t) /\
  total_slowdown_soft r
  = fold_left
      (fun acc level =>
         wrap64 (acc + at_ 0 (stall_leveln_slowdown_soft_ s) level))
      shown (total_slowdown_soft t) /\
  total_slowdown_count_soft r
  = fold_left
      (fun acc level =>
         wrap64 (acc + at_ 0 (stall_leveln_slowdown_count_soft_ s) level))
      shown (total_slowdown_count_soft t) /\
  total_slowdown_hard r
  = fold_left
      (fun acc level =>
         wrap64 (acc + at_ 0 (stall_leveln_slowdown_hard_ s) level))
      shown (total_slowdown_hard t) /\
  total_slowdown_count_hard r
  = fold_left
      (fun acc level =>
         wrap64 (acc + at_ 0 (stall_leveln_slowdown_count_hard_ s) level))
      shown (total_slowdown_count_hard t).
Proof.
  cbv zeta. revert t value.
  induction levels as [| level levels IH]; intros t value.
  - cbn. repeat split.
  - cbn [fold_left List.filter].
    destruct (DumpCFStats_level s compaction_score files_being_compacted
                (t, value) level) as [t1 v1] eqn:Hstep.
    specialize (IH t1 v1).
    unfold DumpCFStats_level in Hstep.
    destruct (level_is_rendered s level); injection Hstep as <- _;
      exact IH.
Qed.

Lemma Zsum_filter_in (f : Z -> Z) (p : Z -> bool) (levels : list Z) :
  (forall level, In level levels -> p level = false -> f level = 0) ->
  Zsum f (List.filter p levels) = Zsum f levels.
Proof.
  induction levels as [| level levels IH]; intros Hzero; [reflexivity |].
  cbn [List.filter Zsum fold_right].
  assert (Zsum f (List.filter p levels) = Zsum f levels) as IH'.
  { apply IH. intros l Hl. apply Hzero. right. exact Hl. }
  unfold Zsum in IH'.
  destruct (p level) eqn:Hp.
  - cbn [Zsum fold_right]. rewrite IH'. reflexivity.
  - rewrite IH', (Hzero level (or_introl eq_refl) Hp). reflexivity.
Qed.

(** A level without a row has no file, so none being compacted. *)
Lemma files_being_compacted_omitted (s : InternalStats) (level : Z) :
  0 <= level -> level_is_rendered s level = false ->
  at_ 0 (level_files_being_compacted s) level = 0.
Proof.
  intros Hlevel Hr. rewrite level_files_being_compacted_at by exact Hlevel.
  destruct ((level <? num_levels_to_check s) && (level <? number_levels_ s));
    [| reflexivity].
  pose proof (NumLevelFiles_omitted s level Hr) as Hfiles.
  unfold NumLevelFiles in Hfiles. unfold LevelFiles.
  destruct (at_ [] (files_ (storage_info (current (cfd_ s)))) level);
    [reflexivity | cbn in Hfiles; lia].
Qed.

(** The totals of the level loop, as sums over the levels that get a
    row. *)
Lemma cf_totals_sums (s : InternalStats) :
  let vstorage := storage_info (current (cfd_ s)) in
  let levels := rendered_levels s in
  cf_totals s
  = {| stats_sum :=
         fold_left Add (map (at_ zero_stats (comp_stats_ s)) levels)
           (CompactionStats_init 0);
       total_files := Zsum (NumLevelFiles vstorage) levels;
       total_files_being_compacted :=
         Zsum (at_ 0 (level_files_being_compacted s)) levels;
       total_file_size :=
         Dsum (fun level => Z2D (NumLevelBytes vstorage level)) levels;
       total_slowdown_soft :=
         Usum (at_ 0 (stall_leveln_slowdown_soft_ s)) levels;
       total_slowdown_count_soft :=
         Usum (at_ 0 (stall_leveln_slowdown_count_soft_ s)) levels;
       total_slowdown_hard :=
         Usum (at_ 0 (stall_leveln_slowdown_hard_ s)) levels;
       total_slowdown_count_hard :=
         Usum (at_ 0 (stall_leveln_slowdown_count_hard_ s)) levels;
       total_stall_count := Usum (level_stalls s) levels;
       total_stall_us := Dsum (level_stall_us s) levels |}.
Proof.
  intros vstorage levels. subst vstorage levels.
  pose proof (cf_totals_stats_sum s) as Hstats.
  destruct (level_loop_total_files s (level_compaction_scores s)
              (level_files_being_compacted s) (seqZ 0 (number_levels_ s))
              CFTotals_init []) as [Hfiles Hfbc].
  destruct (level_loop_accumulators s (level_compaction_scores s)
              (level_files_being_compacted s) (seqZ 0 (number_levels_ s))
              CFTotals_init [])
    as (Hsize & Hus & Hcount & Hsoft & Hcsoft & Hhard & Hchard).
  cbv zeta in Hfiles, Hfbc, Hsize, Hus, Hcount, Hsoft, Hcsoft, Hhard, Hchard.
  change (fst (fold_left _ _ (CFTotals_init, []))) with (cf_totals s) in *.
  change (List.filter (level_is_rendered s) (seqZ 0 (number_levels_ s)))
    with (rendered_levels s) in *.
  rewrite <- (Zsum_filter (NumLevelFiles (storage_info (current (cfd_ s))))
                (level_is_rendered s) (seqZ 0 (number_levels_ s)))
    in Hfiles by apply NumLevelFiles_omitted.
  rewrite <- (Zsum_filter_in (at_ 0 (level_files_being_compacted s))
                (level_is_rendered s) (seqZ 0 (number_levels_ s)))
    in Hfbc
    by (intros level Hin; apply files_being_compacted_omitted;
        apply In_seqZ in Hin; lia).
  change (List.filter (level_is_rendered s) (seqZ 0 (number_levels_ s)))
    with (rendered_levels s) in *.
  destruct (cf_totals s). cbn in *. subst.
  unfold Dsum, Usum. f_equal; lia.
Qed.

(** C8: the level table of the per-column-family report has a row for
    each level of the column family that has a file or a positive
    compaction time, and for no other level; the row of a level shows the
    files, the size and the compaction time and count of that level.
    After these rows comes the "Sum" row, every figure of which is
    computed from sums over the levels that have a row: the files, the
    files being compacted, the sizes, the stall times and counts, and the
    compaction statistics.  Then comes the "Int" row, computed from the
    same sums minus the values of the last snapshot.  The flush line and
    the two stall lines close the report. *)
Theorem DumpCFStats_level_table (s : InternalStats) (value : list Chunk) :
  let vstorage := storage_info (current (cfd_ s)) in
  let snap := cf_stats_snapshot_ s in
  let levels := rendered_levels s in
  let stats_at := at_ zero_stats (comp_stats_ s) in
  let sum := fold_left Add (map stats_at levels) (CompactionStats_init 0) in
  let interval := Subtract sum (CFStatsSnapshot.comp_stats snap) in
  let files := Zsum (NumLevelFiles vstorage) levels in
  let being := Zsum (at_ 0 (level_files_being_compacted s)) levels in
  let size := Dsum (fun level => Z2D (NumLevelBytes vstorage level)) levels in
  let stall_us := Dsum (level_stall_us s) levels in
  let stalls := Usum (level_stalls s) levels in
  let slowdown_soft := Usum (at_ 0 (stall_leveln_slowdown_soft_ s)) levels in
  let slowdown_hard := Usum (at_ 0 (stall_leveln_slowdown_hard_ s)) levels in
  let ingest := cf_stats_value_ s BYTES_FLUSHED in
  let interval_ingest :=
    wrap64 (wrap64 (ingest - CFStatsSnapshot.ingest_bytes snap) + 1) in
  let row := fun (name : string) (files being : Z)
                 (size w_amp stall_us : double) (stalls : Z)
                 (stats : CompactionStats) =>
    let bytes_read := wrap64 (bytes_readn stats + bytes_readnp1 stats) in
    let elapsed := (Z2D (wrap64 (micros stats + 1)) / kMicros)%Qc in
    {| row_name := name;
       row_files := files;
       row_being_compacted := being;
       row_size_mb := (size / kMB)%Qc;
       row_score := Z2D 0;
       row_read_gb := (Z2D bytes_read / kGB)%Qc;
       row_rn_gb := (Z2D (bytes_readn stats) / kGB)%Qc;
       row_rnp1_gb := (Z2D (bytes_readnp1 stats) / kGB)%Qc;
       row_write_gb := (Z2D (bytes_written stats) / kGB)%Qc;
       row_wnew_gb :=
         (Z2D (wrap64 (bytes_written stats - bytes_readnp1 stats)) / kGB)%Qc;
       row_moved_gb := (Z2D (bytes_moved stats) / kGB)%Qc;
       row_w_amp := w_amp;
       row_rd_mbs := (Z2D bytes_read / kMB / elapsed)%Qc;
       row_wr_mbs := (Z2D (bytes_written stats) / kMB / elapsed)%Qc;
       row_comp_sec := (Z2D (micros stats) / kMicros)%Qc;
       row_comp_cnt := count stats;
       row_avg_sec :=
         if count stats =? 0 then Z2D 0
         else (Z2D (micros stats) / kMicros / Z2D (count stats))%Qc;
       row_stall_sec := (stall_us / kMicros)%Qc;
       row_stall_cnt := stalls;
       row_avg_ms :=
         if stalls =? 0 then Z2D 0
         else (stall_us / Z2D 1000 / Z2D stalls)%Qc;
       row_record_in := num_input_records stats;
       row_record_drop := num_dropped_records stats |} in
  (forall level,
     In level levels <->
     0 <= level < number_levels_ s /\
     (0 < micros (stats_at level) \/ 0 < NumLevelFiles vstorage level)) /\
  (forall level,
     In level levels ->
     exists r,
       level_row s (level_compaction_scores s) (level_files_being_compacted s)
         level = LevelStatsRow r /\
       row_name r = String.append "L" (ToString level) /\
       row_files r = NumLevelFiles vstorage level /\
       row_size_mb r = (Z2D (NumLevelBytes vstorage level) / kMB)%Qc /\
       row_comp_sec r = (Z2D (micros (stats_at level)) / kMicros)%Qc /\
       row_comp_cnt r = count (stats_at level)) /\
  snd (DumpCFStats s value)
  = value ++
    PrintLevelStatsHeader (GetName (cfd_ s)) ::
    map (level_row s (level_compaction_scores s) (level_files_being_compacted s))
      levels ++
    [LevelStatsRow
       (row "Sum" files being size
          (Z2D (bytes_written sum) / Z2D (wrap64 (ingest + 1)))%Qc
          stall_us stalls sum);
     LevelStatsRow
       (row "Int" 0 0 (Z2D 0)
          (Z2D (bytes_written interval) / Z2D interval_ingest)%Qc
          (stall_us - CFStatsSnapshot.stall_us snap)%Qc
          (wrap64 (stalls - CFStatsSnapshot.stall_count snap)) interval);
     FlushLine (Z2D ingest / kGB)%Qc (Z2D interval_ingest / kGB)%Qc;
     StallsSecs (Z2D (cf_stats_value_ s LEVEL0_SLOWDOWN) / kMicros)%Qc
       (Z2D (cf_stats_value_ s LEVEL0_NUM_FILES) / kMicros)%Qc
       (Z2D (cf_stats_value_ s MEMTABLE_COMPACTION) / kMicros)%Qc
       (Z2D slowdown_soft / kMicros)%Qc (Z2D slowdown_hard / kMicros)%Qc;
     StallsCount (cf_stats_count_ s LEVEL0_SLOWDOWN)
       (cf_stats_count_ s LEVEL0_NUM_FILES)
       (cf_stats_count_ s MEMTABLE_COMPACTION)
       (Usum (at_ 0 (stall_leveln_slowdown_count_soft_ s)) levels)
       (Usum (at_ 0 (stall_leveln_slowdown_count_hard_ s)) levels)] /\
  row_names (snd (DumpCFStats s []))
  = map (fun level => String.append "L" (ToString level)) levels ++
    ["Sum"; "Int"].
Proof.
  cbv zeta. split; [| split; [| split]].
  - intros level. apply In_rendered_levels.
  - intros level _. eexists. split; [reflexivity |].
    repeat split.
  - rewrite DumpCFStats_report. cbn [snd].
    unfold cf_sum_row, cf_int_row, cf_flush_line, cf_stall_lines,
      cf_interval_stats, cf_interval_ingest.
    rewrite (cf_totals_sums s). reflexivity.
  - rewrite DumpCFStats_report. cbn [snd app].
    change (?x :: ?l) with ([x] ++ l) at 1.
    rewrite !row_names_app, row_names_level_rows. reflexivity.
Qed.
